(** * position-api: the handlers of [main.py]

    A shallow embedding of [get_latest_cache_file], [save_to_cache] and the
    [/api/ship] handler [get_singapore_ship_data], together with the parts of
    the Python runtime they rely on ([str] methods, [datetime], [dict.get],
    [float], exceptions), and the properties of the cache orchestration;
    then of the handlers of [/positions] and [/fuel-consumption] over a
    bucket kept as explicit state, and their properties.

    Python [str] values are modelled as [string]; every [ascii] stands for
    one code point in the range 0..255 (the range of an HTTP header value,
    which the framework decodes as Latin-1). *)

From Stdlib Require Import ZArith List String Ascii Bool Lia.
From Stdlib Require Import SpecFloat DecimalString.
Import ListNotations.
Local Open Scope string_scope.
Local Open Scope Z_scope.
Set Warnings "-register-all".

(* ================================================================= *)
(** ** Python [str] methods *)

Module PyStr.

(** [str.isspace] on one code point below 256: TAB..CR, FS..US, SPACE,
    NEL (0x85) and NBSP (0xA0). *)
Definition isspace (c : ascii) : bool :=
  let n := Z.of_nat (nat_of_ascii c) in
  ((9 <=? n) && (n <=? 13)) || ((28 <=? n) && (n <=? 32))
  || (n =? 133) || (n =? 160).

(** [s.lstrip()] *)
Fixpoint lstrip (s : string) : string :=
  match s with
  | String c r => if isspace c then lstrip r else s
  | EmptyString => EmptyString
  end.

(** [s.rstrip()]: drops the trailing run of whitespace. *)
Fixpoint rstrip (s : string) : string :=
  match s with
  | EmptyString => EmptyString
  | String c r =>
      match rstrip r with
      | EmptyString => if isspace c then EmptyString else String c EmptyString
      | r' => String c r'
      end
  end.

(** [s.strip()] *)
Definition strip (s : string) : string := rstrip (lstrip s).

(** Truth value of a [str]: [not s] is true exactly for the empty string. *)
Definition truthy (s : string) : bool :=
  match s with EmptyString => false | String _ _ => true end.

(** Every character of [s] is whitespace ([s] may be empty). *)
Fixpoint all_space (s : string) : bool :=
  match s with
  | EmptyString => true
  | String c r => isspace c && all_space r
  end.

(** [s.startswith(p)] *)
Definition startswith (s p : string) : bool := String.prefix p s.

(** [s.endswith(suf)] *)
Definition endswith (s suf : string) : bool :=
  let n := String.length s in
  let m := String.length suf in
  (m <=? n)%nat && String.eqb (String.substring (n - m) m s) suf.

(** [s.replace(old, new)] for a non-empty [old]: the occurrences of [old]
    are replaced from left to right, without overlap. [skip] counts the
    characters of a just-matched occurrence that remain to be dropped. *)
Fixpoint replace_from (old new : string) (skip : nat) (s : string) : string :=
  match s with
  | EmptyString => EmptyString
  | String c r =>
      match skip with
      | S k => replace_from old new k r
      | O =>
          if String.prefix old s
          then new ++ replace_from old new (Nat.pred (String.length old)) r
          else String c (replace_from old new O r)
      end
  end.

Definition replace (s old new : string) : string := replace_from old new O s.

End PyStr.

(* ================================================================= *)
(** ** Python [datetime] *)

Module PyDatetime.

(** A [datetime] in UTC: the fields CPython stores. *)
Record datetime : Type := mk_datetime {
  year : Z; month : Z; day : Z;
  hour : Z; minute : Z; second : Z; microsecond : Z
}.

Definition MINYEAR : Z := 1.
Definition MAXYEAR : Z := 9999.

(** [_is_leap] *)
Definition is_leap (y : Z) : bool :=
  (y mod 4 =? 0) && (negb (y mod 100 =? 0) || (y mod 400 =? 0)).

(** [_days_before_year]: days before January 1st of year [y]. *)
Definition days_before_year (y : Z) : Z :=
  let p := y - 1 in p * 365 + p / 4 - p / 100 + p / 400.

(** [_days_in_month] *)
Definition days_in_month (y m : Z) : Z :=
  if m =? 2 then (if is_leap y then 29 else 28)
  else if (m =? 4) || (m =? 6) || (m =? 9) || (m =? 11) then 30
  else 31.

(** [_DAYS_BEFORE_MONTH], for a non-leap year. *)
Definition DAYS_BEFORE_MONTH (m : Z) : Z :=
  match m with
  | 1 => 0 | 2 => 31 | 3 => 59 | 4 => 90 | 5 => 120 | 6 => 151
  | 7 => 181 | 8 => 212 | 9 => 243 | 10 => 273 | 11 => 304 | _ => 334
  end.

(** [_days_before_month] *)
Definition days_before_month (y m : Z) : Z :=
  DAYS_BEFORE_MONTH m + (if (2 <? m) && is_leap y then 1 else 0).

(** [_ymd2ord]: the proleptic Gregorian ordinal, 0001-01-01 being day 1. *)
Definition ymd2ord (y m d : Z) : Z :=
  days_before_year y + days_before_month y m + d.

Definition toordinal (t : datetime) : Z := ymd2ord (year t) (month t) (day t).

(** The range checks of the [datetime] constructor ([_check_date_fields],
    [_check_time_fields]); a failed check raises [ValueError]. *)
Definition check_fields (t : datetime) : bool :=
  (MINYEAR <=? year t) && (year t <=? MAXYEAR)
  && (1 <=? month t) && (month t <=? 12)
  && (1 <=? day t) && (day t <=? days_in_month (year t) (month t))
  && (0 <=? hour t) && (hour t <=? 23)
  && (0 <=? minute t) && (minute t <=? 59)
  && (0 <=? second t) && (second t <=? 59)
  && (0 <=? microsecond t) && (microsecond t <=? 999999).

(** A [timedelta] is kept as its total number of microseconds; CPython's
    normalised (days, seconds, microseconds) triple orders the same way. *)
Definition timedelta : Type := Z.

Definition timedelta_minutes (n : Z) : timedelta := n * 60 * 1000000.

(** Microseconds since the start of ordinal day 0. *)
Definition to_us (t : datetime) : Z :=
  (toordinal t * 86400 + (hour t * 3600 + minute t * 60 + second t)) * 1000000
  + microsecond t.

(** [a - b] for two datetimes of the same UTC offset. *)
Definition sub (a b : datetime) : timedelta :=
  ((toordinal a - toordinal b) * 86400
   + ((hour a * 3600 + minute a * 60 + second a)
      - (hour b * 3600 + minute b * 60 + second b))) * 1000000
  + (microsecond a - microsecond b).

(** Comparison of two datetimes with the same [tzinfo]: CPython compares
    the tuples of fields, lexicographically. *)
Definition cmp (a b : datetime) : comparison :=
  match year a ?= year b with
  | Eq =>
    match month a ?= month b with
    | Eq =>
      match day a ?= day b with
      | Eq =>
        match hour a ?= hour b with
        | Eq =>
          match minute a ?= minute b with
          | Eq =>
            match second a ?= second b with
            | Eq => microsecond a ?= microsecond b
            | c => c
            end
          | c => c
          end
        | c => c
        end
      | c => c
      end
    | c => c
    end
  | c => c
  end.

(** [a > b] *)
Definition gtb (a b : datetime) : bool :=
  match cmp a b with Gt => true | _ => false end.

(** [a <= b] *)
Definition leb (a b : datetime) : bool :=
  match cmp a b with Gt => false | _ => true end.

(** [a < b] *)
Definition ltb (a b : datetime) : bool :=
  match cmp a b with Lt => true | _ => false end.

(** *** [strptime] with the format [%Y-%m-%d_%H-%M-%S]

    CPython turns the format into a regular expression, one group per
    directive, matches it at the start of the string and rejects the string
    when the match does not reach its end. A regex is modelled as a
    backtracking matcher: the list of its matches, in priority order. *)

Definition matcher (A : Type) : Type := string -> list (A * string).

Definition m_alt {A} (p q : matcher A) : matcher A := fun s => (p s ++ q s)%list.

Definition m_bind {A B} (p : matcher A) (f : A -> matcher B) : matcher B :=
  fun s => flat_map (fun vr => f (fst vr) (snd vr)) (p s).

Definition m_ret {A} (a : A) : matcher A := fun s => [(a, s)].

(** A literal character of the format. *)
Definition m_lit (c : ascii) : matcher unit :=
  fun s => match s with
           | String a r => if Ascii.eqb a c then [(tt, r)] else []
           | EmptyString => []
           end.

Definition code (c : ascii) : Z := Z.of_nat (nat_of_ascii c).

(** The character class [[lo-hi]] of decimal digits; [\d] is [[0-9]]. *)
Definition in_range (lo hi : Z) (c : ascii) : bool :=
  (48 + lo <=? code c) && (code c <=? 48 + hi).

Definition digit_val (c : ascii) : Z := code c - 48.

(** One digit in [[lo-hi]]. *)
Definition m_digit (lo hi : Z) : matcher Z :=
  fun s => match s with
           | String a r => if in_range lo hi a then [(digit_val a, r)] else []
           | EmptyString => []
           end.

(** Two digits, the first in [[a-b]] and the second in [[c-d]]; the value
    read by [int]. *)
Definition m_digits2 (a b c d : Z) : matcher Z :=
  m_bind (m_digit a b) (fun x => m_bind (m_digit c d) (fun y => m_ret (10 * x + y))).

(** [%Y]: [\d\d\d\d] *)
Definition re_Y : matcher Z :=
  m_bind (m_digit 0 9) (fun a => m_bind (m_digit 0 9) (fun b =>
  m_bind (m_digit 0 9) (fun c => m_bind (m_digit 0 9) (fun d =>
  m_ret (1000 * a + 100 * b + 10 * c + d))))).

(** [%m]: [1[0-2]|0[1-9]|[1-9]] *)
Definition re_m : matcher Z :=
  m_alt (m_digits2 1 1 0 2) (m_alt (m_digits2 0 0 1 9) (m_digit 1 9)).

(** [%d]: [3[0-1]|[1-2]\d|0[1-9]|[1-9]| [1-9]] *)
Definition re_d : matcher Z :=
  m_alt (m_digits2 3 3 0 1) (m_alt (m_digits2 1 2 0 9) (m_alt (m_digits2 0 0 1 9)
  (m_alt (m_digit 1 9) (m_bind (m_lit " ") (fun _ => m_digit 1 9))))).

(** [%H]: [2[0-3]|[0-1]\d|\d] *)
Definition re_H : matcher Z :=
  m_alt (m_digits2 2 2 0 3) (m_alt (m_digits2 0 1 0 9) (m_digit 0 9)).

(** [%M]: [[0-5]\d|\d] *)
Definition re_M : matcher Z :=
  m_alt (m_digits2 0 5 0 9) (m_digit 0 9).

(** [%S]: [6[0-1]|[0-5]\d|\d] *)
Definition re_S : matcher Z :=
  m_alt (m_digits2 6 6 0 1) (m_alt (m_digits2 0 5 0 9) (m_digit 0 9)).

(** A directive followed by a literal character of the format. *)
Definition m_field {A B} (p : matcher A) (c : ascii) (K : A -> matcher B)
    : matcher B :=
  m_bind p (fun x => m_bind (m_lit c) (fun _ => K x)).

(** The regex of the whole format. *)
Definition re_format : matcher datetime :=
  m_field re_Y "-" (fun y =>
  m_field re_m "-" (fun m =>
  m_field re_d "_" (fun d =>
  m_field re_H "-" (fun h =>
  m_field re_M "-" (fun mi =>
  m_bind re_S (fun sec => m_ret (mk_datetime y m d h mi sec 0))))))).

(** [datetime.strptime(s, '%Y-%m-%d_%H-%M-%S')]; [None] stands for the
    [ValueError] of a string that does not match, of unconverted data after
    the match, or of fields that are no date or time of day. *)
Definition strptime (s : string) : option datetime :=
  match re_format s with
  | (t, rest) :: _ =>
      match rest with
      | EmptyString => if check_fields t then Some t else None
      | String _ _ => None
      end
  | [] => None
  end.

(** *** [strftime] with the format [%Y-%m-%d_%H-%M-%S] *)

Definition digit_char (d : Z) : ascii := ascii_of_nat (Z.to_nat (48 + d)).

Definition pad2 (n : Z) : string :=
  String (digit_char (n / 10)) (String (digit_char (n mod 10)) EmptyString).

(** Four digits, as the C library prints a year from 1000 on. *)
Definition pad4 (n : Z) : string :=
  String (digit_char (n / 1000)) (String (digit_char (n / 100 mod 10))
    (String (digit_char (n / 10 mod 10)) (String (digit_char (n mod 10)) EmptyString))).

Definition strftime (t : datetime) : string :=
  pad4 (year t) ++ "-" ++ pad2 (month t) ++ "-" ++ pad2 (day t) ++ "_"
  ++ pad2 (hour t) ++ "-" ++ pad2 (minute t) ++ "-" ++ pad2 (second t).

(** The datetime with its microseconds cleared: what the file name keeps. *)
Definition whole_second (t : datetime) : datetime :=
  mk_datetime (year t) (month t) (day t) (hour t) (minute t) (second t) 0.

End PyDatetime.

Import PyDatetime.

(* ================================================================= *)
(** ** Python values, exceptions and the effects of a request *)

(** A value decoded from JSON (or built by the handler). A [dict] is kept as
    the list of its items; a lookup takes the first item of a key. *)
Inductive pyval : Type :=
| PNone
| PBool (b : bool)
| PInt (z : Z)
| PFloat (f : spec_float)
| PStr (s : string)
| PList (l : list pyval)
| PDict (d : list (string * pyval)).

(** The exceptions the handler can meet, and the [detail] of an
    [HTTPException], kept structured instead of formatted. *)
Inductive exn : Type :=
| HTTPException (status_code : Z) (d : detail)
| RequestError (msg : string)          (* httpx.RequestError: network level *)
| HTTPStatusError (upstream_status : Z) (* httpx.HTTPStatusError *)
| ValueError
| TypeError
| AttributeError
| OverflowError
| StoreError (msg : string)            (* an error of the object store client *)
with detail : Type :=
| DApiKeyRequired                      (* "API key is required" *)
| DFetchFailed (upstream_status : Z)   (* "Failed to fetch data from Singapore API: <status>" *)
| DNetworkError (e : exn)              (* "Network error: <e>" *)
| DApiError (upstream_status : Z)      (* "API error: <status>" *)
| DStr (e : exn).                      (* str(e) *)

(** The result of a call that may raise. *)
Inductive outcome (A : Type) : Type :=
| Ok (a : A)
| Raise (e : exn).
Arguments Ok {A} a.
Arguments Raise {A} e.

Definition obind {A B} (o : outcome A) (f : A -> outcome B) : outcome B :=
  match o with Ok a => f a | Raise e => Raise e end.

Inductive level : Type := INFO | WARNING | ERROR.

Inductive logmsg : Type :=
| LCacheCheckError (e : exn)           (* "Error checking cache files: <e>" *)
| LCached (cache_filename : string)    (* "Cached Singapore API data to <name>" *)
| LSaveFailed (e : exn)                (* "Failed to save cache: <e>" *)
| LUsingCached (ts : datetime)         (* "Using cached Singapore API data from <ts>" *)
| LNoValidCache                        (* "No valid cache found, fetching fresh data ..." *)
| LApiFailed (status : Z) (text : string) (* "Singapore API request failed: ..." *)
| LFetched                             (* "Fetched and cached fresh Singapore API data" *)
| LNetworkException                    (* "Network error when calling Singapore API" *)
| LHttpException                       (* "HTTP error from Singapore API" *)
| LFailedException.                    (* "Failed to fetch Singapore ship data" *)

(** What a request does to the outside, in order. *)
Inductive event : Type :=
| EvListBlobs (prefix : string)        (* iterating bucket.list_blobs(prefix=...) *)
| EvDownload (name : string)           (* blob.download_as_text() *)
| EvUpload (name body : string)        (* blob.upload_from_string(body) *)
| EvHttpGet (apikey : string)          (* client.get(SINGAPORE_API_URL, headers, timeout) *)
| EvLog (lv : level) (msg : logmsg).

(** An object of the bucket: its name and what [download_as_text] gives. *)
Record Blob : Type := mk_blob {
  blob_name : string;
  download_as_text : outcome string
}.

(** An [httpx.Response]. *)
Record Response : Type := mk_response {
  status_code : Z;
  text : string;
  json : outcome pyval          (* response.json() *)
}.

(** [response.is_success]: a 2xx status. *)
Definition is_success (r : Response) : bool :=
  (200 <=? status_code r) && (status_code r <=? 299).

(** The outside world during one request: the answers of the object store,
    of the upstream API and of the clock. A store client that cannot be
    built in [get_latest_cache_file] is a listing that yields nothing and
    ends with the error; in [save_to_cache] it is the error in place of the
    bucket. *)
Record World : Type := mk_world {
  (* the blobs the listing yields and, if the listing fails, the error that
     ends it *)
  list_blobs : list Blob * option exn;
  (* datetime.now(timezone.utc) in get_latest_cache_file *)
  now_at_scan : datetime;
  (* the upstream answer to a GET carrying the given apikey header *)
  upstream_get : string -> outcome Response;
  (* datetime.now(timezone.utc) in save_to_cache *)
  now_at_save : datetime;
  (* get_gcs_client() and client.bucket(BUCKET_NAME) in save_to_cache: the
     error they raise, or the bucket, which gives the error, if any, of
     upload_from_string of a body under a name *)
  save_bucket : outcome (string -> string -> option exn)
}.


(** A computation with effects: the events it performs and its result. *)
Definition M (A : Type) : Type := (list event * outcome A)%type.

Definition ret {A} (a : A) : M A := ([], Ok a).

Definition raise {A} (e : exn) : M A := ([], Raise e).

Definition emit (ev : event) : M unit := ([ev], Ok tt).

Definition lift {A} (o : outcome A) : M A := ([], o).

Definition bind {A B} (m : M A) (f : A -> M B) : M B :=
  match m with
  | (t, Ok a) => let '(t', r) := f a in ((t ++ t')%list, r)
  | (t, Raise e) => (t, Raise e)
  end.

(** [try: m except Exception as e: h e] *)
Definition try_except {A} (m : M A) (h : exn -> M A) : M A :=
  match m with
  | (t, Raise e) => let '(t', r) := h e in ((t ++ t')%list, r)
  | (t, Ok a) => (t, Ok a)
  end.

Notation "x <- m ;; k" := (bind m (fun x => k))
  (at level 61, m at next level, right associativity).
Notation "m ;;; k" := (bind m (fun _ => k))
  (at level 61, right associativity).
Notation "x <-- o ;; k" := (obind o (fun x => k))
  (at level 61, o at next level, right associativity).

Definition trace {A} (m : M A) : list event := fst m.
Definition result {A} (m : M A) : outcome A := snd m.

(* ================================================================= *)
(** ** [main.py] *)

Definition SINGAPORE_CACHE_FOLDER : string := "singapore-cache/".
Definition CACHE_EXPIRY_MINUTES : Z := 10.

(** *** [get_latest_cache_file] *)

(** The timestamp read from a blob name, [None] for the [ValueError] of
    [strptime]. Both [replace] calls remove every occurrence. *)
Definition file_timestamp (name : string) : option datetime :=
  let filename :=
    PyStr.replace (PyStr.replace name SINGAPORE_CACHE_FOLDER "") ".json" "" in
  strptime filename.

(** The test of line 91: the blob is within the expiry time. *)
Definition within_expiry (current_time ts : datetime) : bool :=
  PyDatetime.sub current_time ts <=? timedelta_minutes CACHE_EXPIRY_MINUTES.

(** One turn of the loop over the listed blobs. *)
Definition scan_blob (current_time : datetime)
    (valid_blobs : list (Blob * datetime)) (blob : Blob) : list (Blob * datetime) :=
  if PyStr.endswith (blob_name blob) ".json" then
    match file_timestamp (blob_name blob) with
    | Some ts =>
        if within_expiry current_time ts
        then (valid_blobs ++ [(blob, ts)])%list
        else valid_blobs
    | None => valid_blobs
    end
  else valid_blobs.

Definition scan_blobs (current_time : datetime) (blobs : list Blob)
    : list (Blob * datetime) :=
  fold_left (scan_blob current_time) blobs [].

(** [max(items, key=lambda x: x[1])] over a non-empty sequence: the first
    item whose key no later item exceeds. *)
Fixpoint max_by_timestamp (best : Blob * datetime) (rest : list (Blob * datetime))
    : Blob * datetime :=
  match rest with
  | [] => best
  | x :: r => max_by_timestamp (if gtb (snd x) (snd best) then x else best) r
  end.

Definition get_latest_cache_file (w : World) : M (option (Blob * datetime)) :=
  try_except
    (emit (EvListBlobs SINGAPORE_CACHE_FOLDER) ;;;
     let current_time := now_at_scan w in
     let valid_blobs := scan_blobs current_time (fst (list_blobs w)) in
     match snd (list_blobs w) with
     | Some e => raise e
     | None =>
         match valid_blobs with
         | x :: r => ret (Some (max_by_timestamp x r))
         | [] => ret None
         end
     end)
    (fun e => emit (EvLog WARNING (LCacheCheckError e)) ;;; ret None).

(** *** The Python runtime functions the handler calls *)

(** [d.get(key, default)] on the items of a dict. *)
Fixpoint dict_get (d : list (string * pyval)) (key : string) (default : pyval) : pyval :=
  match d with
  | [] => default
  | (k, v) :: r => if String.eqb k key then v else dict_get r key default
  end.

(** [key in d] *)
Fixpoint dict_has (d : list (string * pyval)) (key : string) : bool :=
  match d with
  | [] => false
  | (k, _) :: r => String.eqb k key || dict_has r key
  end.

(** [ship.get(key, default)]: only a dict has the method. *)
Definition py_get (ship : pyval) (key : string) (default : pyval) : outcome pyval :=
  match ship with
  | PDict d => Ok (dict_get d key default)
  | _ => Raise AttributeError
  end.

(** [float(n)] for an [int]: the nearest binary64, [OverflowError] beyond
    its range. *)
Definition float_of_int (n : Z) : outcome spec_float :=
  match binary_normalize 53 1024 n 0 false with
  | S754_infinity _ => Raise OverflowError
  | f => Ok f
  end.

(** [0.0] *)
Definition float_zero : spec_float := S754_zero false.

(** The characters of a [str], each as a [str]. *)
Fixpoint chars (s : string) : list pyval :=
  match s with
  | EmptyString => []
  | String c r => PStr (String c EmptyString) :: chars r
  end.

(** [for ship in api_data]: the items an object yields when iterated. *)
Definition py_iter (v : pyval) : outcome (list pyval) :=
  match v with
  | PList l => Ok l
  | PDict d => Ok (map (fun kv => PStr (fst kv)) d)
  | PStr s => Ok (chars s)
  | _ => Raise TypeError
  end.

Fixpoint mapM {A B} (f : A -> outcome B) (l : list A) : outcome (list B) :=
  match l with
  | [] => Ok []
  | x :: r => y <-- f x ;; ys <-- mapM f r ;; Ok (y :: ys)
  end.

Section Handler.

(** The library functions whose text is not part of the program:
    [json.loads], [json.dumps(_, indent=2)] and [float] on a [str]. *)
Variable json_loads : string -> outcome pyval.
Variable json_dumps : pyval -> string.
Variable float_of_str : string -> outcome spec_float.

(** [float(v)] *)
Definition py_float (v : pyval) : outcome spec_float :=
  match v with
  | PFloat f => Ok f
  | PInt n => float_of_int n
  | PBool b => float_of_int (if b then 1 else 0)
  | PStr s => float_of_str s
  | _ => Raise TypeError
  end.

(** [float(ship.get(key, 0))] *)
Definition get_float (ship : pyval) (key : string) : outcome pyval :=
  v <-- py_get ship key (PInt 0) ;;
  f <-- py_float v ;;
  Ok (PFloat f).

(** [float(ship.get(key, ship.get(fallback, 0)))] *)
Definition get_float_or (ship : pyval) (key fallback : string) : outcome pyval :=
  d <-- py_get ship fallback (PInt 0) ;;
  v <-- py_get ship key d ;;
  f <-- py_float v ;;
  Ok (PFloat f).

(** [ship.get(key, "")] *)
Definition get_str (ship : pyval) (key : string) : outcome pyval :=
  py_get ship key (PStr "").

(** The dict built for one ship, lines 297-321; the entries are evaluated
    in the order they are written. *)
Definition transform_ship (ship : pyval) : outcome pyval :=
  vesselName <-- get_str ship "vesselName" ;;
  callSign <-- get_str ship "callSign" ;;
  imoNumber <-- get_str ship "imoNumber" ;;
  flag <-- get_str ship "flag" ;;
  vesselLength <-- get_float ship "vesselLength" ;;
  vesselBreadth <-- get_float ship "vesselBreadth" ;;
  vesselDepth <-- get_float ship "vesselDepth" ;;
  vesselType <-- get_str ship "vesselType" ;;
  grossTonnage <-- get_float ship "grossTonnage" ;;
  netTonnage <-- get_float ship "netTonnage" ;;
  deadweight <-- get_float ship "deadweight" ;;
  mmsiNumber <-- get_str ship "mmsiNumber" ;;
  yearBuilt <-- get_str ship "yearBuilt" ;;
  latitude <-- get_float ship "latitude" ;;
  longitude <-- get_float ship "longitude" ;;
  latitudeDegrees <-- get_float_or ship "latitudeDegrees" "latitude" ;;
  longitudeDegrees <-- get_float_or ship "longitudeDegrees" "longitude" ;;
  speed <-- get_float ship "speed" ;;
  course <-- get_float ship "course" ;;
  heading <-- get_float ship "heading" ;;
  timeStamp <-- get_str ship "timeStamp" ;;
  Ok (PDict [
    ("vesselParticulars", PDict [
       ("vesselName", vesselName);
       ("callSign", callSign);
       ("imoNumber", imoNumber);
       ("flag", flag);
       ("vesselLength", vesselLength);
       ("vesselBreadth", vesselBreadth);
       ("vesselDepth", vesselDepth);
       ("vesselType", vesselType);
       ("grossTonnage", grossTonnage);
       ("netTonnage", netTonnage);
       ("deadweight", deadweight);
       ("mmsiNumber", mmsiNumber);
       ("yearBuilt", yearBuilt) ]);
    ("latitude", latitude);
    ("longitude", longitude);
    ("latitudeDegrees", latitudeDegrees);
    ("longitudeDegrees", longitudeDegrees);
    ("speed", speed);
    ("course", course);
    ("heading", heading);
    ("timeStamp", timeStamp) ]).

(** The loop of lines 295-322 over the decoded response. *)
Definition transform (api_data : pyval) : outcome (list pyval) :=
  ships <-- py_iter api_data ;;
  mapM transform_ship ships.

(** *** [save_to_cache] *)

Definition cache_filename_at (t : datetime) : string :=
  SINGAPORE_CACHE_FOLDER ++ strftime t ++ ".json".

Definition save_to_cache (w : World) (data : pyval) : M (option string) :=
  try_except
    (bucket <- lift (save_bucket w) ;;
     let timestamp := strftime (now_at_save w) in
     let cache_filename := SINGAPORE_CACHE_FOLDER ++ timestamp ++ ".json" in
     let body := json_dumps data in
     emit (EvUpload cache_filename body) ;;;
     match bucket cache_filename body with
     | Some e => raise e
     | None =>
         emit (EvLog INFO (LCached cache_filename)) ;;;
         ret (Some cache_filename)
     end)
    (fun e => emit (EvLog ERROR (LSaveFailed e)) ;;; ret None).

(** *** [get_singapore_ship_data], the handler of [GET /api/ship] *)

(** The test of line 256. *)
Definition api_key_missing (x_api_key : string) : bool :=
  negb (PyStr.truthy x_api_key) || String.eqb (PyStr.strip x_api_key) "".

(** The [except] clauses of lines 330-338, tried in order. *)
Definition handle_exception (e : exn) : M pyval :=
  match e with
  | RequestError _ =>
      emit (EvLog ERROR LNetworkException) ;;;
      raise (HTTPException 502 (DNetworkError e))
  | HTTPStatusError upstream_status =>
      emit (EvLog ERROR LHttpException) ;;;
      raise (HTTPException 502 (DApiError upstream_status))
  | _ =>
      emit (EvLog ERROR LFailedException) ;;;
      raise (HTTPException 500 (DStr e))
  end.

(** Lines 268-328: no valid cache, fetch from the API. *)
Definition fetch_fresh (w : World) (x_api_key : string) : M pyval :=
  emit (EvLog INFO LNoValidCache) ;;;
  emit (EvHttpGet x_api_key) ;;;
  response <- lift (upstream_get w x_api_key) ;;
  if negb (is_success response) then
    emit (EvLog ERROR (LApiFailed (status_code response) (text response))) ;;;
    raise (HTTPException 502 (DFetchFailed (status_code response)))
  else
    api_data <- lift (json response) ;;
    transformed_data <- lift (transform api_data) ;;
    save_to_cache w (PList transformed_data) ;;;
    emit (EvLog INFO LFetched) ;;;
    ret (PList transformed_data).

(** Lines 262-266: a valid cache exists. *)
Definition read_cached (cached_blob : Blob) (cache_timestamp : datetime) : M pyval :=
  emit (EvLog INFO (LUsingCached cache_timestamp)) ;;;
  emit (EvDownload (blob_name cached_blob)) ;;;
  cached_content <- lift (download_as_text cached_blob) ;;
  cached_data <- lift (json_loads cached_content) ;;
  ret cached_data.

Definition get_singapore_ship_data (w : World) (x_api_key : string) : M pyval :=
  try_except
    ((if api_key_missing x_api_key
      then raise (HTTPException 400 DApiKeyRequired)
      else ret tt) ;;;
     cached <- get_latest_cache_file w ;;
     match cached with
     | Some (cached_blob, cache_timestamp) => read_cached cached_blob cache_timestamp
     | None => fetch_fresh w x_api_key
     end)
    handle_exception.

End Handler.

(* ================================================================= *)
(** ** Specification-level notions *)

(** A listed blob qualifies with timestamp [ts]: its name has the suffix,
    its name parses to [ts], and its age is at most the expiry time. *)
Definition qualifies (now : datetime) (b : Blob) (ts : datetime) : Prop :=
  PyStr.endswith (blob_name b) ".json" = true
  /\ file_timestamp (blob_name b) = Some ts
  /\ PyDatetime.sub now ts <= timedelta_minutes CACHE_EXPIRY_MINUTES.

(** [out[key]] on the dict built for a ship. *)
Definition field (out : pyval) (key : string) : pyval :=
  match out with
  | PDict d => dict_get d key PNone
  | _ => PNone
  end.

(** [out["vesselParticulars"][key]] *)
Definition particular (out : pyval) (key : string) : pyval :=
  field (field out "vesselParticulars") key.

(** The fields the handler converts with [float], by where they go. *)
Definition numeric_particulars : list string :=
  ["vesselLength"; "vesselBreadth"; "vesselDepth";
   "grossTonnage"; "netTonnage"; "deadweight"].

Definition numeric_readings : list string :=
  ["latitude"; "longitude"; "speed"; "course"; "heading"].

(** The fields the handler copies, defaulting to the empty string. *)
Definition string_particulars : list string :=
  ["vesselName"; "callSign"; "imoNumber"; "flag"; "vesselType";
   "mmsiNumber"; "yearBuilt"].

(** Every character of [s] satisfies [p]. *)
Fixpoint string_forall (p : ascii -> bool) (s : string) : bool :=
  match s with
  | EmptyString => true
  | String c r => p c && string_forall p r
  end.

(** A character that starts neither the cache folder nor the suffix. *)
Definition timestamp_char (c : ascii) : bool :=
  negb (Ascii.eqb c "s") && negb (Ascii.eqb c ".").

(** The request performs a call to the upstream API. *)
Definition is_network_call (ev : event) : bool :=
  match ev with EvHttpGet _ => true | _ => false end.

(** The request performs any call to the object store. *)
Definition is_store_call (ev : event) : bool :=
  match ev with
  | EvListBlobs _ | EvDownload _ | EvUpload _ _ => true
  | _ => false
  end.

(** The cache writes of a trace, as (name, body) pairs. *)
Fixpoint cache_writes (t : list event) : list (string * string) :=
  match t with
  | [] => []
  | EvUpload name body :: r => (name, body) :: cache_writes r
  | _ :: r => cache_writes r
  end.

(** The status the client sees: an [HTTPException] that leaves the handler
    is answered with its status code. *)
Definition http_status {A} (o : outcome A) : Z :=
  match o with
  | Ok _ => 200
  | Raise (HTTPException c _) => c
  | Raise _ => 500
  end.

(** *** The timestamp of a key, read by its characters *)

Module KeyFormat.












End KeyFormat.



(** The blob [b] alone adds this to [valid_blobs]. *)
Definition kept (now : datetime) (b : Blob) : list (Blob * datetime) :=
  scan_blob now [] b.

(* ================================================================= *)
(** ** Sample runs *)

Module Sample.

(** Stand-ins for the library functions. *)
Definition loads (s : string) : outcome pyval :=
  if String.eqb s "[]" then Ok (PList []) else Raise ValueError.

Definition dumps (v : pyval) : string :=
  match v with
  | PList [] => "[]"
  | _ => "[ ... ]"
  end.

Definition float_of_str (s : string) : outcome spec_float := Raise ValueError.

(** [1.5] *)
Definition one_and_a_half : spec_float := S754_finite false 6755399441055744 (-52).

Definition blob_10_00 : Blob :=
  mk_blob "singapore-cache/2024-01-01_10-00-00.json" (Ok "[]").
Definition blob_10_05 : Blob :=
  mk_blob "singapore-cache/2024-01-01_10-05-00.json" (Ok "[]").
Definition blob_bad_key : Blob :=
  mk_blob "singapore-cache/bad-key.json" (Ok "[]").
Definition blob_year_9999 : Blob :=
  mk_blob "singapore-cache/9999-12-31_23-59-59.json" (Ok "[]").
Definition blob_unreadable : Blob :=
  mk_blob "singapore-cache/2024-01-01_10-05-00.json"
    (Raise (StoreError "unavailable")).

Definition at_10_06 : datetime := mk_datetime 2024 1 1 10 6 0 250000.
Definition at_10_06_01 : datetime := mk_datetime 2024 1 1 10 6 1 500000.

Definition ship : pyval :=
  PDict [("vesselName", PStr "EVER GIVEN"); ("latitude", PFloat one_and_a_half)].

Definition answer_200 : Response :=
  mk_response 200 "[ ... ]" (Ok (PList [ship])).
Definition answer_503 : Response :=
  mk_response 503 "Service Unavailable" (Raise ValueError).

Definition store_ok : outcome (string -> string -> option exn) :=
  Ok (fun name body => None).
Definition store_down : outcome (string -> string -> option exn) :=
  Ok (fun name body => Some (StoreError "unavailable")).
Definition no_client : outcome (string -> string -> option exn) :=
  Raise (StoreError "no credentials").

(** Two fresh entries and a stray object, six minutes past ten. *)
Definition world_hit : World :=
  mk_world ([blob_10_00; blob_10_05; blob_bad_key], None) at_10_06
    (fun _ => Ok answer_200) at_10_06_01 store_ok.

(** An empty cache folder and a healthy upstream. *)
Definition world_miss : World :=
  mk_world ([], None) at_10_06 (fun _ => Ok answer_200) at_10_06_01 store_ok.

(** An empty cache folder and an upstream answering 503. *)
Definition world_503 : World :=
  mk_world ([], None) at_10_06 (fun _ => Ok answer_503) at_10_06_01 store_ok.

(** A store that fails while it is listed, and on every write. *)
Definition world_store_down : World :=
  mk_world ([blob_10_05], Some (StoreError "unavailable")) at_10_06
    (fun _ => Ok answer_200) at_10_06_01 store_down.

(** An entry dated at the end of year 9999. *)
Definition world_future : World :=
  mk_world ([blob_10_05; blob_year_9999], None) at_10_06
    (fun _ => Ok answer_200) at_10_06_01 store_ok.

(** An empty cache folder, a healthy upstream, and no store client when
    the answer is to be saved. *)
Definition world_no_client : World :=
  mk_world ([], None) at_10_06 (fun _ => Ok answer_200) at_10_06_01 no_client.

(** A lookup that starts and saves within one second. *)
Definition at_10_06_later : datetime := mk_datetime 2024 1 1 10 6 0 750000.
Definition world_quick : World :=
  mk_world ([], None) at_10_06 (fun _ => Ok answer_200) at_10_06_later store_ok.



(** A fresh entry that cannot be downloaded. *)
Definition world_unreadable : World :=
  mk_world ([blob_unreadable], None) at_10_06
    (fun _ => Ok answer_200) at_10_06_01 store_ok.

End Sample.

(* ================================================================= *)
(** ** The position and fuel-consumption endpoints of [main.py] *)

(** More of the Python runtime. *)
Module PyText.

(** ["\n"] *)
Definition NL : string := String "010" EmptyString.

(** A line boundary of [str.splitlines] below code point 256: LF, VT, FF,
    CR, FS, GS, RS and NEL. *)
Definition is_linebreak (c : ascii) : bool :=
  let n := Z.of_nat (nat_of_ascii c) in
  ((10 <=? n) && (n <=? 13)) || ((28 <=? n) && (n <=? 30)) || (n =? 133).

(** [s.splitlines()], [cur] being the line read so far: CR LF is one
    boundary, and a boundary at the end opens no further line. *)
Fixpoint splitlines_from (cur : string) (s : string) : list string :=
  match s with
  | EmptyString =>
      match cur with EmptyString => [] | String _ _ => [cur] end
  | String c r =>
      if Ascii.eqb c "013" then
        match r with
        | String "010" r' => cur :: splitlines_from EmptyString r'
        | _ => cur :: splitlines_from EmptyString r
        end
      else if is_linebreak c then cur :: splitlines_from EmptyString r
      else splitlines_from (cur ++ String c EmptyString) r
  end.

Definition splitlines (s : string) : list string := splitlines_from EmptyString s.

(** [c in s] for a one-character [c]. *)
Fixpoint contains (c : ascii) (s : string) : bool :=
  match s with
  | EmptyString => false
  | String a r => Ascii.eqb a c || contains c r
  end.

(** [s.split(c, 1)] when it has two parts: the text before the first [c]
    and the text after it. *)
Fixpoint split_once (c : ascii) (s : string) : option (string * string) :=
  match s with
  | EmptyString => None
  | String a r =>
      if Ascii.eqb a c then Some (EmptyString, r)
      else match split_once c r with
           | Some (k, v) => Some (String a k, v)
           | None => None
           end
  end.

(** [str.lower] on one code point below 256: A-Z and the capital letters
    of Latin-1 (0xC0-0xDE but the multiplication sign) move up by 32. *)
Definition lower_char (c : ascii) : ascii :=
  let n := Z.of_nat (nat_of_ascii c) in
  if ((65 <=? n) && (n <=? 90))
     || ((192 <=? n) && (n <=? 222) && negb (n =? 215))
  then ascii_of_nat (nat_of_ascii c + 32)
  else c.

Fixpoint lower (s : string) : string :=
  match s with
  | EmptyString => EmptyString
  | String c r => String (lower_char c) (lower r)
  end.

(** [str(n)] for an [int]. *)
Definition str_of_int (n : Z) : string := NilZero.string_of_int (Z.to_int n).

(** The nearest integer to [m * 2^e], ties going to the even one. *)
Definition round_half_even (m e : Z) : Z :=
  if 0 <=? e then m * 2 ^ e
  else
    let d := 2 ^ (- e) in
    let q := m / d in
    let r := m mod d in
    if 2 * r <? d then q
    else if d <? 2 * r then q + 1
    else if Z.even q then q else q + 1.

(** [round(x)] for a [float]. *)
Definition py_round (x : spec_float) : outcome Z :=
  match x with
  | S754_zero _ => Ok 0
  | S754_nan => Raise ValueError
  | S754_infinity _ => Raise OverflowError
  | S754_finite s m e =>
      let n := round_half_even (Zpos m) e in
      Ok (if s then - n else n)
  end.

(** The truth value of an object. *)
Definition truthy (v : pyval) : bool :=
  match v with
  | PNone => false
  | PBool b => b
  | PInt n => negb (n =? 0)
  | PFloat (S754_zero _) => false
  | PFloat _ => true
  | PStr s => PyStr.truthy s
  | PList l => match l with [] => false | _ :: _ => true end
  | PDict d => match d with [] => false | _ :: _ => true end
  end.

(** [d[key] = v]: the value of a present key is replaced where it stands,
    a new key goes to the end. *)
Fixpoint dict_set (d : list (string * pyval)) (key : string) (v : pyval)
    : list (string * pyval) :=
  match d with
  | [] => [(key, v)]
  | (k, x) :: r =>
      if String.eqb k key then (k, v) :: r else (k, x) :: dict_set r key v
  end.

End PyText.

Module Files.

Definition BUCKET_NAME : string := "position-api".
Definition POSITION_FILE_NAME : string := "positions/position.txt".
Definition FUEL_CONSUMPTION_FILE_NAME : string :=
  "fuel-consumption/ship_speed_consumption.json".

(** The exceptions of these handlers: the [HTTPException]s they raise, with
    a literal detail or with [str(e)], and the exceptions of the store
    client and of the runtime. *)
Inductive failure : Type :=
| HTTP (status_code : Z) (d : http_detail)
| Lib (e : exn)
with http_detail : Type :=
| Text (s : string)
| StrOf (e : failure).

Inductive res (A : Type) : Type :=
| Done (a : A)
| Fail (e : failure).
Arguments Done {A} a.
Arguments Fail {A} e.

Definition rbind {A B} (r : res A) (f : A -> res B) : res B :=
  match r with Done a => f a | Fail e => Fail e end.

(** A call of the store client or of the runtime inside a handler. *)
Definition of_outcome {A} (o : outcome A) : res A :=
  match o with Ok a => Done a | Raise e => Fail (Lib e) end.

Notation "x <~ r ;; k" := (rbind r (fun x => k))
  (at level 61, r at next level, right associativity).

(** The bucket: its blobs by name, the first item of a name being the
    blob, and the error each kind of request meets, if any. *)
Record Bucket : Type := mk_bucket {
  blobs : list (string * string);
  exists_error : option exn;
  download_error : option exn;
  upload_error : option exn
}.

Fixpoint find_blob (l : list (string * string)) (name : string) : option string :=
  match l with
  | [] => None
  | (n, t) :: r => if String.eqb n name then Some t else find_blob r name
  end.

(** [blob.exists()] *)
Definition blob_exists (b : Bucket) (name : string) : outcome bool :=
  match exists_error b with
  | Some e => Raise e
  | None =>
      Ok match find_blob (blobs b) name with Some _ => true | None => false end
  end.

(** [blob.download_as_text()] *)
Definition blob_download (b : Bucket) (name : string) : outcome string :=
  match download_error b with
  | Some e => Raise e
  | None =>
      match find_blob (blobs b) name with
      | Some t => Ok t
      | None => Raise (StoreError "404 No such object")
      end
  end.

(** [blob.upload_from_string(text)]: the bucket afterwards. *)
Definition blob_upload (b : Bucket) (name text : string) : Bucket * outcome unit :=
  match upload_error b with
  | Some e => (b, Raise e)
  | None =>
      (mk_bucket ((name, text) :: blobs b)
         (exists_error b) (download_error b) (upload_error b),
       Ok tt)
  end.

(** What a handler leaves: the lines it logged, and its answer. *)
Definition Logged (A : Type) : Type := (list string * res A)%type.

Definition answer {A} (l : Logged A) : res A := snd l.

(** [try: body except Exception as e: logging.exception(msg); raise
    HTTPException(status_code=500, detail=str(e))] *)
Definition guarded {A} (msg : string) (body : res A) : Logged A :=
  match body with
  | Done a => ([], Done a)
  | Fail e => ([msg], Fail (HTTP 500 (StrOf e)))
  end.

(** The status the client sees. *)
Definition status {A} (r : res A) : Z :=
  match r with
  | Done _ => 200
  | Fail (HTTP c _) => c
  | Fail (Lib _) => 500
  end.

Section Handlers.

Variable json_loads : string -> outcome pyval.
Variable float_of_str : string -> outcome spec_float.
(** [str(x)] for a [float], as an f-string prints it. *)
Variable str_of_float : spec_float -> string.

(** *** [GET /positions] *)

(** One turn of the loop of lines 144-152. *)
Definition read_line (data : list (string * pyval)) (line : string)
    : res (list (string * pyval)) :=
  if PyText.contains ":" line then
    match PyText.split_once ":" (PyStr.strip line) with
    | Some (key, value) =>
        let key := PyText.lower (PyStr.strip key) in
        let value := PyStr.strip value in
        if String.eqb key "latitude" || String.eqb key "longitude" then
          f <~ of_outcome (float_of_str value) ;;
          Done (PyText.dict_set data key (PFloat f))
        else Done (PyText.dict_set data key (PStr value))
    | None => Fail (Lib ValueError)
    end
  else Done data.

Fixpoint read_lines (data : list (string * pyval)) (lines : list string)
    : res (list (string * pyval)) :=
  match lines with
  | [] => Done data
  | line :: r => data' <~ read_line data line ;; read_lines data' r
  end.

(** Lines 140-154: from the text of the file to the answer. *)
Definition parse_positions (content : string) : res pyval :=
  let lines := PyText.splitlines (PyStr.strip content) in
  data <~ read_lines [] lines ;;
  Done (PDict data).

Definition get_data (b : Bucket) : Logged pyval :=
  guarded "Failed to read from GCS"
    (found <~ of_outcome (blob_exists b POSITION_FILE_NAME) ;;
     if negb found then Fail (HTTP 404 (Text "Data file not found."))
     else
       content <~ of_outcome (blob_download b POSITION_FILE_NAME) ;;
       parse_positions content).

(** *** [POST /positions] *)

Record InputData : Type := mk_input {
  lon : spec_float;
  lat : spec_float;
  time : string
}.

(** The text of lines 162-166. *)
Definition position_content (data : InputData) : string :=
  "Time: " ++ time data ++ PyText.NL
  ++ "Latitude: " ++ str_of_float (lat data) ++ PyText.NL
  ++ "Longitude: " ++ str_of_float (lon data) ++ PyText.NL.

Definition submit_data (b : Bucket) (data : InputData) : Bucket * Logged pyval :=
  let content := position_content data in
  let '(b', r) := blob_upload b POSITION_FILE_NAME content in
  (b',
   guarded "Failed to write to GCS"
     (_ <~ of_outcome r ;;
      Done (PDict [("message",
                    PStr ("Data written to gs://" ++ BUCKET_NAME ++ "/"
                          ++ POSITION_FILE_NAME))]))).

(** *** [GET /fuel-consumption] *)

Definition get_fuel_consumption_data (b : Bucket) : Logged pyval :=
  guarded "Failed to read from GCS"
    (found <~ of_outcome (blob_exists b FUEL_CONSUMPTION_FILE_NAME) ;;
     if negb found then Fail (HTTP 404 (Text "Data file not found."))
     else
       content <~ of_outcome (blob_download b FUEL_CONSUMPTION_FILE_NAME) ;;
       of_outcome (json_loads content)).

(** *** [POST /fuel-consumption] *)

Record FuelRequest : Type := mk_fuel_request {
  category : string;
  vessel_type : string;
  speed : spec_float
}.

(** [max(8, min(22, speed))] *)
Definition clamp_speed (speed : Z) : Z := Z.max 8 (Z.min 22 speed).

(** [x.get(key)], whose default is [None]. *)
Definition get_or_none (x : pyval) (key : string) : outcome pyval :=
  py_get x key PNone.

(** Lines 215-238: from the decoded table to the answer. *)
Definition fuel_value_of (data : pyval) (request : FuelRequest) : res pyval :=
  rounded <~ of_outcome (PyText.py_round (speed request)) ;;
  let clamped_speed := clamp_speed rounded in
  by_category <~ of_outcome (py_get data (category request) (PDict [])) ;;
  vessel_info <~ of_outcome (get_or_none by_category (vessel_type request)) ;;
  if negb (PyText.truthy vessel_info)
  then Fail (HTTP 404 (Text "Vessel type not found."))
  else
    fuel_map <~ of_outcome (py_get vessel_info "fuel_consumption_tpd" (PDict [])) ;;
    fuel_value <~ of_outcome
      (get_or_none fuel_map (PyText.str_of_int clamped_speed)) ;;
    match fuel_value with
    | PNone => Fail (HTTP 404 (Text "Fuel data not available for this speed."))
    | _ =>
        Done (PDict [
          ("category", PStr (category request));
          ("vessel_type", PStr (vessel_type request));
          ("requested_speed", PFloat (speed request));
          ("used_speed", PInt clamped_speed);
          ("fuel_consumption_tpd", fuel_value) ])
    end.

Definition get_fuel_consumption_value (b : Bucket) (request : FuelRequest)
    : Logged pyval :=
  guarded "Failed to compute fuel consumption"
    (found <~ of_outcome (blob_exists b FUEL_CONSUMPTION_FILE_NAME) ;;
     if negb found then Fail (HTTP 404 (Text "Data file not found."))
     else
       content <~ of_outcome (blob_download b FUEL_CONSUMPTION_FILE_NAME) ;;
       data <~ of_outcome (json_loads content) ;;
       fuel_value_of data request).

End Handlers.

End Files.

(** The request downloads a blob. *)
Definition is_download (ev : event) : bool :=
  match ev with EvDownload _ => true | _ => false end.

(** No character of [s] is a line boundary. *)
Definition one_line (s : string) : bool :=
  string_forall (fun c => negb (PyText.is_linebreak c)) s.

(** A text on one line, not empty, with no whitespace at either end. *)
Definition well_printed (s : string) : Prop :=
  one_line s = true /\ PyStr.lstrip s = s /\ PyStr.rstrip s = s /\ s <> "".

(** An item of the answer of [GET /positions]: a lower-case key, with a
    [float] under [latitude] and [longitude] and a [str] under the others. *)
Definition position_item (kv : string * pyval) : Prop :=
  PyText.lower (fst kv) = fst kv
  /\ if String.eqb (fst kv) "latitude" || String.eqb (fst kv) "longitude"
     then exists f, snd kv = PFloat f
     else exists s, snd kv = PStr s.

(** An event that, if it is a call to the upstream API, carries [k]. *)
Definition forwards (k : string) (ev : event) : Prop :=
  match ev with
  | EvHttpGet k' => k' = k
  | _ => True
  end.

Module SampleFiles.

(** [1.5] and [0.0] as an f-string prints them, and back. *)
Definition str_of_float (x : spec_float) : string :=
  match x with
  | S754_zero _ => "0.0"
  | _ => "1.5"
  end.

Definition float_of_str (s : string) : outcome spec_float :=
  if String.eqb s "1.5" then Ok Sample.one_and_a_half
  else if String.eqb s "0.0" then Ok float_zero
  else Raise ValueError.

(** 9.5 and 30.0 *)
Definition nine_and_a_half : spec_float := S754_finite false 19 (-1).
Definition thirty : spec_float := S754_finite false 30 0.

Definition fuel_table : pyval :=
  PDict [("cargo",
          PDict [("bulk carrier",
                  PDict [("fuel_consumption_tpd",
                          PDict [("8", PFloat Sample.one_and_a_half);
                                 ("10", PInt 21);
                                 ("22", PInt 60)])])])].

Definition loads (s : string) : outcome pyval :=
  if String.eqb s "{ ... }" then Ok fuel_table else Raise ValueError.

Definition empty_bucket : Files.Bucket := Files.mk_bucket [] None None None.

Definition fuel_bucket : Files.Bucket :=
  Files.mk_bucket [(Files.FUEL_CONSUMPTION_FILE_NAME, "{ ... }")] None None None.

Definition position : Files.InputData :=
  Files.mk_input float_zero Sample.one_and_a_half " 2024-01-01T10:05:00Z ".

End SampleFiles.

Module SampleMore.

Import Sample.

(** The upstream API cannot be reached. *)
Definition world_network_down : World :=
  mk_world ([], None) at_10_06 (fun _ => Raise (RequestError "timed out"))
    at_10_06_01 store_ok.

(** The upstream list holds a number among its vessel objects. *)
Definition world_bad_vessel : World :=
  mk_world ([], None) at_10_06
    (fun _ => Ok (mk_response 200 "[ ... ]" (Ok (PList [ship; PInt 3]))))
    at_10_06_01 store_ok.





(** A vessel object with both latitudes and a number for a name. *)
Definition odd_ship : list (string * pyval) :=
  [("vesselName", PInt 7);
   ("latitude", PFloat one_and_a_half);
   ("latitudeDegrees", PInt 0)].

End SampleMore.

(* ================================================================= *)
(** ** Examples *)

Example strptime_ok :
  strptime "2024-01-01_10-05-00" = Some (mk_datetime 2024 1 1 10 5 0 0).
Proof. reflexivity. Qed.

(** [strptime] also takes fields of one digit. *)
Example strptime_short :
  strptime "2024-1-1_1-0-0" = Some (mk_datetime 2024 1 1 1 0 0 0).
Proof. reflexivity. Qed.

Example strptime_no_such_day : strptime "2024-02-30_10-05-00" = None.
Proof. reflexivity. Qed.

Example strptime_unconverted : strptime "2024-01-01_10-05-000" = None.
Proof. reflexivity. Qed.

Example strptime_leap_second : strptime "2024-01-01_10-05-60" = None.
Proof. reflexivity. Qed.

Example strptime_bad_key : strptime "bad-key" = None.
Proof. reflexivity. Qed.

Example strftime_ok :
  strftime (mk_datetime 2024 1 1 10 5 0 123) = "2024-01-01_10-05-00".
Proof. reflexivity. Qed.

Example file_timestamp_ok :
  file_timestamp "singapore-cache/2024-01-01_10-05-00.json"
  = Some (mk_datetime 2024 1 1 10 5 0 0).
Proof. reflexivity. Qed.

Example strip_ok : PyStr.strip "  a b  " = "a b".
Proof. reflexivity. Qed.

(* ================================================================= *)
(** ** The order of datetimes *)

Lemma gtb_spec (a b : datetime) :
  gtb a b = true <->
  (year a > year b \/ (year a = year b /\
  (month a > month b \/ (month a = month b /\
  (day a > day b \/ (day a = day b /\
  (hour a > hour b \/ (hour a = hour b /\
  (minute a > minute b \/ (minute a = minute b /\
  (second a > second b \/ (second a = second b /\
   microsecond a > microsecond b)))))))))))).
Proof.
  unfold gtb, cmp.
  destruct (Z.compare_spec (year a) (year b));
    [ | split; [discriminate | lia] | split; [lia | reflexivity] ].
  destruct (Z.compare_spec (month a) (month b));
    [ | split; [discriminate | lia] | split; [lia | reflexivity] ].
  destruct (Z.compare_spec (day a) (day b));
    [ | split; [discriminate | lia] | split; [lia | reflexivity] ].
  destruct (Z.compare_spec (hour a) (hour b));
    [ | split; [discriminate | lia] | split; [lia | reflexivity] ].
  destruct (Z.compare_spec (minute a) (minute b));
    [ | split; [discriminate | lia] | split; [lia | reflexivity] ].
  destruct (Z.compare_spec (second a) (second b));
    [ | split; [discriminate | lia] | split; [lia | reflexivity] ].
  destruct (Z.compare_spec (microsecond a) (microsecond b));
    [ split; [discriminate | lia] | split; [discriminate | lia]
    | split; [lia | reflexivity] ].
Qed.

Lemma leb_gtb (a b : datetime) : leb a b = negb (gtb a b).
Proof. unfold leb, gtb. destruct (cmp a b); reflexivity. Qed.

Lemma leb_refl (a : datetime) : leb a a = true.
Proof.
  rewrite leb_gtb. destruct (gtb a a) eqn:E; [ | reflexivity].
  apply gtb_spec in E. lia.
Qed.

Lemma leb_trans (a b c : datetime) :
  leb a b = true -> leb b c = true -> leb a c = true.
Proof.
  rewrite !leb_gtb.
  destruct (gtb a b) eqn:Eab; [discriminate | ].
  destruct (gtb b c) eqn:Ebc; [discriminate | ].
  destruct (gtb a c) eqn:Eac; [ | reflexivity].
  intros _ _. exfalso.
  apply gtb_spec in Eac.
  assert (Hab : ~ gtb a b = true) by congruence.
  assert (Hbc : ~ gtb b c = true) by congruence.
  rewrite gtb_spec in Hab, Hbc. lia.
Qed.

Lemma gtb_leb (a b : datetime) : gtb a b = true -> leb b a = true.
Proof.
  intros H. rewrite leb_gtb. destruct (gtb b a) eqn:E; [ | reflexivity].
  apply gtb_spec in H, E. lia.
Qed.

(* ================================================================= *)
(** ** Datetimes as instants: the field order is the order of time *)

Lemma check_fields_spec (t : datetime) :
  check_fields t = true <->
  (1 <= year t <= 9999 /\ 1 <= month t <= 12
   /\ 1 <= day t <= days_in_month (year t) (month t)
   /\ 0 <= hour t <= 23 /\ 0 <= minute t <= 59 /\ 0 <= second t <= 59
   /\ 0 <= microsecond t <= 999999).
Proof.
  unfold check_fields, MINYEAR, MAXYEAR.
  rewrite !andb_true_iff, !Z.leb_le. tauto.
Qed.

Lemma sub_to_us (a b : datetime) : PyDatetime.sub a b = to_us a - to_us b.
Proof.
  change (PyDatetime.sub a b = to_us a - to_us b :> Z).
  unfold PyDatetime.sub, to_us. ring.
Qed.

Lemma days_before_year_succ (y : Z) :
  days_before_year (y + 1)
  = days_before_year y + (if is_leap y then 366 else 365).
Proof.
  unfold days_before_year, is_leap.
  replace (y + 1 - 1) with y by ring.
  destruct (Z.eqb_spec (y mod 4) 0) as [H4 | H4];
  destruct (Z.eqb_spec (y mod 100) 0) as [H100 | H100];
  destruct (Z.eqb_spec (y mod 400) 0) as [H400 | H400];
  simpl; Z.div_mod_to_equations; lia.
Qed.

Lemma days_before_year_mono (y1 y2 : Z) :
  y1 <= y2 -> days_before_year y1 <= days_before_year y2.
Proof.
  unfold days_before_year. intros H.
  Z.div_mod_to_equations. lia.
Qed.

Ltac calendar_simpl :=
  cbv [DAYS_BEFORE_MONTH Z.eqb Z.ltb Z.compare Pos.compare Pos.compare_cont
       Pos.eqb andb orb] in *.

Ltac month_cases m :=
  let H := fresh "Hm" in
  assert (H : m = 1 \/ m = 2 \/ m = 3 \/ m = 4 \/ m = 5 \/ m = 6 \/ m = 7
              \/ m = 8 \/ m = 9 \/ m = 10 \/ m = 11 \/ m = 12) by lia;
  repeat (destruct H as [H | H]); subst m.

Lemma day_of_year_bounds (y m d : Z) :
  1 <= m <= 12 -> 1 <= d <= days_in_month y m ->
  1 <= days_before_month y m + d <= (if is_leap y then 366 else 365).
Proof.
  intros Hm Hd. unfold days_in_month, days_before_month in *.
  month_cases m; destruct (is_leap y); calendar_simpl; lia.
Qed.

Lemma days_before_month_next (y m1 m2 d : Z) :
  1 <= m1 -> m1 < m2 -> m2 <= 12 -> d <= days_in_month y m1 ->
  days_before_month y m1 + d <= days_before_month y m2.
Proof.
  intros H1 H12 H2 Hd. unfold days_in_month, days_before_month in *.
  month_cases m1; month_cases m2; try lia;
    destruct (is_leap y); calendar_simpl; lia.
Qed.

(** On well-formed datetimes [a > b] holds exactly when [a] is the later
    instant. *)
Lemma gtb_to_us (a b : datetime) :
  check_fields a = true -> check_fields b = true ->
  (gtb a b = true <-> to_us a > to_us b).
Proof.
  intros Ha Hb. apply check_fields_spec in Ha, Hb.
  destruct Ha as (Hya & Hma & Hda & Hha & Hmia & Hsa & Hua).
  destruct Hb as (Hyb & Hmb & Hdb & Hhb & Hmib & Hsb & Hub).
  rewrite gtb_spec. unfold to_us, toordinal, ymd2ord.
  pose proof (day_of_year_bounds _ _ _ Hma Hda) as Ba.
  pose proof (day_of_year_bounds _ _ _ Hmb Hdb) as Bb.
  destruct (Z.lt_trichotomy (year a) (year b)) as [Hy | [Hy | Hy]].
  - pose proof (days_before_year_mono (year a + 1) (year b) ltac:(lia)) as Hmono.
    rewrite days_before_year_succ in Hmono.
    destruct (is_leap (year a)); lia.
  - rewrite Hy in *.
    destruct (Z.lt_trichotomy (month a) (month b)) as [Hm | [Hm | Hm]].
    + pose proof (days_before_month_next (year b) (month a) (month b) (day a)
                    ltac:(lia) Hm ltac:(lia) ltac:(lia)).
      lia.
    + rewrite Hm in *. lia.
    + pose proof (days_before_month_next (year b) (month b) (month a) (day b)
                    ltac:(lia) Hm ltac:(lia) ltac:(lia)).
      lia.
  - pose proof (days_before_year_mono (year b + 1) (year a) ltac:(lia)) as Hmono.
    rewrite days_before_year_succ in Hmono.
    destruct (is_leap (year b)); lia.
Qed.

Lemma leb_to_us (a b : datetime) :
  check_fields a = true -> check_fields b = true ->
  (leb a b = true <-> to_us a <= to_us b).
Proof.
  intros Ha Hb. rewrite leb_gtb.
  pose proof (gtb_to_us a b Ha Hb) as H.
  destruct (gtb a b); simpl; split; intros H'; try reflexivity; try discriminate.
  - assert (to_us a > to_us b) by (apply H; reflexivity). lia.
  - destruct (Z.le_gt_cases (to_us a) (to_us b)) as [Hle | Hgt]; [exact Hle | ].
    assert (false = true) by (apply H; lia). discriminate.
Qed.

(** A timestamp read from a blob name is a well-formed datetime. *)
Lemma strptime_check (s : string) (t : datetime) :
  strptime s = Some t -> check_fields t = true.
Proof.
  unfold strptime. destruct (re_format s) as [ | [t0 rest] l]; [discriminate | ].
  destruct rest; [ | discriminate].
  destruct (check_fields t0) eqn:E; [ | discriminate].
  intros H. inversion H; subst. exact E.
Qed.

(* ================================================================= *)
(** ** A name written by [save_to_cache] reads back as its timestamp *)

Ltac digit_cases d :=
  let H := fresh "Hd" in
  assert (H : d = 0 \/ d = 1 \/ d = 2 \/ d = 3 \/ d = 4 \/ d = 5 \/ d = 6
              \/ d = 7 \/ d = 8 \/ d = 9) by lia;
  repeat (destruct H as [H | H]); subst d.

Lemma m_digit_digit_char (lo hi d : Z) (r : string) :
  0 <= d <= 9 ->
  m_digit lo hi (String (digit_char d) r)
  = if (lo <=? d) && (d <=? hi) then [(d, r)] else [].
Proof.
  intros H. unfold m_digit, in_range.
  assert (Hc : code (digit_char d) = 48 + d) by (digit_cases d; reflexivity).
  unfold digit_val. rewrite Hc.
  replace (48 + lo <=? 48 + d) with (lo <=? d)
    by (destruct (Z.leb_spec lo d), (Z.leb_spec (48 + lo) (48 + d)); lia).
  replace (48 + d <=? 48 + hi) with (d <=? hi)
    by (destruct (Z.leb_spec d hi), (Z.leb_spec (48 + d) (48 + hi)); lia).
  replace (48 + d - 48) with d by ring. reflexivity.
Qed.

Lemma m_digit_dash (lo hi : Z) (r : string) :
  0 <= lo -> hi <= 9 -> m_digit lo hi (String "-" r) = [].
Proof.
  intros Hlo Hhi. unfold m_digit, in_range.
  change (code "-") with 45.
  destruct (Z.leb_spec (48 + lo) 45); [lia | reflexivity].
Qed.

(** The four digits of a year. *)
Lemma re_Y_digits {B} (y : Z) (K : Z -> matcher B) (r : string) :
  0 <= y <= 9999 ->
  m_bind re_Y K (pad4 y ++ r) = K y r.
Proof.
  intros Hy. unfold re_Y, pad4, m_bind, m_ret. cbn [append].
  rewrite !m_digit_digit_char by (Z.div_mod_to_equations; lia).
  assert (H1 : (0 <=? y / 1000) && (y / 1000 <=? 9) = true)
    by (apply andb_true_iff; rewrite !Z.leb_le; Z.div_mod_to_equations; lia).
  rewrite H1. cbn [flat_map fst snd app].
  rewrite !m_digit_digit_char by (Z.div_mod_to_equations; lia).
  assert (H2 : (0 <=? y / 100 mod 10) && (y / 100 mod 10 <=? 9) = true)
    by (apply andb_true_iff; rewrite !Z.leb_le; Z.div_mod_to_equations; lia).
  rewrite H2. cbn [flat_map fst snd app].
  rewrite !m_digit_digit_char by (Z.div_mod_to_equations; lia).
  assert (H3 : (0 <=? y / 10 mod 10) && (y / 10 mod 10 <=? 9) = true)
    by (apply andb_true_iff; rewrite !Z.leb_le; Z.div_mod_to_equations; lia).
  rewrite H3. cbn [flat_map fst snd app].
  rewrite !m_digit_digit_char by (Z.div_mod_to_equations; lia).
  assert (H4 : (0 <=? y mod 10) && (y mod 10 <=? 9) = true)
    by (apply andb_true_iff; rewrite !Z.leb_le; Z.div_mod_to_equations; lia).
  rewrite H4. cbn [flat_map fst snd app].
  rewrite !app_nil_r.
  replace (1000 * (y / 1000) + 100 * (y / 100 mod 10) + 10 * (y / 10 mod 10)
           + y mod 10) with y by (Z.div_mod_to_equations; lia).
  reflexivity.
Qed.

Lemma re_Y_pad4 {B} (y : Z) (K : Z -> matcher B) (r : string) :
  0 <= y <= 9999 ->
  m_field re_Y "-" K (pad4 y ++ String "-" r) = K y r.
Proof.
  intros Hy. unfold m_field. rewrite re_Y_digits by exact Hy.
  unfold m_bind. simpl. apply app_nil_r.
Qed.

(** Case analysis on a natural number bounded by a hypothesis in context. *)
Ltac nat_cases k tac :=
  first [ lia | destruct k as [ | k]; [ first [ lia | tac ] | nat_cases k tac ] ].

Ltac field_cases v hi :=
  let k := fresh "k" in
  let Hk := fresh "Hk" in
  assert (Hk : exists k : nat, v = Z.of_nat k /\ (k <= hi)%nat)
    by (exists (Z.to_nat v); lia);
  destruct Hk as [k [Hk Hk']]; subst v;
  nat_cases k ltac:(vm_compute;
                    repeat (etransitivity; [apply app_nil_r | ]); reflexivity).

(** A two-digit month, day, hour or minute followed by its separator. *)
Lemma re_m_pad2 {B} (v : Z) (K : Z -> matcher B) (r : string) :
  1 <= v <= 12 ->
  m_field re_m "-" K (pad2 v ++ String "-" r) = K v r.
Proof. intros H. field_cases v 12%nat. Qed.

Lemma re_d_pad2 {B} (v : Z) (K : Z -> matcher B) (r : string) :
  1 <= v <= 31 ->
  m_field re_d "_" K (pad2 v ++ String "_" r) = K v r.
Proof. intros H. field_cases v 31%nat. Qed.

Lemma re_H_pad2 {B} (v : Z) (K : Z -> matcher B) (r : string) :
  0 <= v <= 23 ->
  m_field re_H "-" K (pad2 v ++ String "-" r) = K v r.
Proof. intros H. field_cases v 23%nat. Qed.

Lemma re_M_pad2 {B} (v : Z) (K : Z -> matcher B) (r : string) :
  0 <= v <= 59 ->
  m_field re_M "-" K (pad2 v ++ String "-" r) = K v r.
Proof. intros H. field_cases v 59%nat. Qed.

(** The two-digit second at the end of the string: the first match reads
    both digits and leaves nothing. *)
Lemma re_S_pad2 (v : Z) (f : Z -> datetime) :
  0 <= v <= 59 ->
  exists l, m_bind re_S (fun x => m_ret (f x)) (pad2 v) = (f v, "") :: l.
Proof.
  intros H.
  assert (Hk : exists k : nat, v = Z.of_nat k /\ (k <= 59)%nat)
    by (exists (Z.to_nat v); lia).
  destruct Hk as [k [Hk Hk']]; subst v.
  nat_cases k ltac:(vm_compute; eexists; reflexivity).
Qed.

(** [strptime] reads back what [strftime] prints, to the second. *)
Lemma strptime_strftime (t : datetime) :
  check_fields t = true -> 1000 <= year t ->
  strptime (strftime t) = Some (whole_second t).
Proof.
  intros Hc Hy. pose proof Hc as Hc'. apply check_fields_spec in Hc'.
  destruct Hc' as (Hyr & Hmo & Hda & Hho & Hmi & Hse & Hus).
  assert (Hda' : 1 <= day t <= 31).
  { unfold days_in_month in Hda.
    destruct (month t =? 2); [destruct (is_leap (year t)); lia | ].
    destruct ((month t =? 4) || (month t =? 6) || (month t =? 9)
              || (month t =? 11)); lia. }
  unfold strptime, strftime, re_format. cbn [append].
  rewrite re_Y_pad4 by lia.
  rewrite re_m_pad2 by lia.
  rewrite re_d_pad2 by lia.
  rewrite re_H_pad2 by lia.
  rewrite re_M_pad2 by lia.
  destruct (re_S_pad2 (second t)
              (fun sec => mk_datetime (year t) (month t) (day t) (hour t)
                            (minute t) sec 0) Hse) as [l Hl].
  rewrite Hl.
  assert (Hw : check_fields (whole_second t) = true).
  { apply check_fields_spec. unfold whole_second. simpl. repeat split; lia. }
  unfold whole_second in *. rewrite Hw. reflexivity.
Qed.

(** *** The two [replace] calls on a name written by [save_to_cache] *)

Lemma replace_from_keep (a : ascii) (old' new : string) (s tail : string) :
  string_forall (fun c => negb (Ascii.eqb c a)) s = true ->
  PyStr.replace_from (String a old') new O (s ++ tail)
  = s ++ PyStr.replace_from (String a old') new O tail.
Proof.
  induction s as [ | c s IH]; intros H; [reflexivity | ].
  simpl in H. apply andb_true_iff in H. destruct H as [Hc Hs].
  cbn [append PyStr.replace_from String.prefix].
  destruct (ascii_dec a c) as [-> | Hne].
  - rewrite Ascii.eqb_refl in Hc. discriminate.
  - rewrite (IH Hs). reflexivity.
Qed.

Lemma string_forall_app (p : ascii -> bool) (s1 s2 : string) :
  string_forall p (s1 ++ s2) = string_forall p s1 && string_forall p s2.
Proof.
  induction s1 as [ | c s1 IH]; [reflexivity | ].
  simpl. rewrite IH. apply andb_assoc.
Qed.

Lemma digit_char_timestamp_char (d : Z) :
  0 <= d <= 9 -> timestamp_char (digit_char d) = true.
Proof. intros H. digit_cases d; reflexivity. Qed.

(** [strftime] prints digits, dashes and one underscore. *)
Lemma strftime_chars (t : datetime) :
  check_fields t = true ->
  string_forall timestamp_char (strftime t) = true.
Proof.
  intros Hc. apply check_fields_spec in Hc.
  destruct Hc as (Hyr & Hmo & Hda & Hho & Hmi & Hse & Hus).
  assert (Hda' : 1 <= day t <= 31).
  { unfold days_in_month in Hda.
    destruct (month t =? 2); [destruct (is_leap (year t)); lia | ].
    destruct ((month t =? 4) || (month t =? 6) || (month t =? 9)
              || (month t =? 11)); lia. }
  unfold strftime. rewrite !string_forall_app. unfold pad4, pad2.
  cbn [string_forall].
  rewrite !digit_char_timestamp_char by (Z.div_mod_to_equations; lia).
  reflexivity.
Qed.

Lemma string_forall_weaken (p q : ascii -> bool) (s : string) :
  (forall c, p c = true -> q c = true) ->
  string_forall p s = true -> string_forall q s = true.
Proof.
  intros Hpq. induction s as [ | c s IH]; [reflexivity | ].
  simpl. rewrite !andb_true_iff. intros [H1 H2]. split; auto.
Qed.

Lemma append_empty_r (s : string) : s ++ "" = s.
Proof. induction s as [ | c s IH]; [reflexivity | ]. simpl. now rewrite IH. Qed.

Lemma substring_whole (s : string) : substring 0 (String.length s) s = s.
Proof. induction s as [ | c s IH]; [reflexivity | ]. simpl. now rewrite IH. Qed.

Lemma length_append (s1 s2 : string) :
  String.length (s1 ++ s2) = (String.length s1 + String.length s2)%nat.
Proof. induction s1 as [ | c s1 IH]; [reflexivity | ]. simpl. now rewrite IH. Qed.

Lemma substring_append_r (s suf : string) :
  substring (String.length s) (String.length suf) (s ++ suf) = suf.
Proof. induction s as [ | c s IH]; [apply substring_whole | exact IH]. Qed.

Lemma endswith_app (s suf : string) : PyStr.endswith (s ++ suf) suf = true.
Proof.
  unfold PyStr.endswith. rewrite length_append.
  replace (String.length s + String.length suf - String.length suf)%nat
    with (String.length s) by lia.
  rewrite substring_append_r, String.eqb_refl.
  apply andb_true_iff. split; [ | reflexivity]. apply Nat.leb_le. lia.
Qed.

Lemma append_assoc (s1 s2 s3 : string) : (s1 ++ s2) ++ s3 = s1 ++ (s2 ++ s3).
Proof. induction s1 as [ | c s1 IH]; [reflexivity | ]. simpl. now rewrite IH. Qed.

(** The first [replace] removes the folder in front of the name. *)
Lemma replace_folder_prefix (X : string) :
  PyStr.replace_from SINGAPORE_CACHE_FOLDER "" O (SINGAPORE_CACHE_FOLDER ++ X)
  = PyStr.replace_from SINGAPORE_CACHE_FOLDER "" O X.
Proof. destruct X; reflexivity. Qed.

(** The name [save_to_cache] gives at [t] starts with the cache folder,
    ends with the suffix, and reads back as [t] to the second. *)
Lemma cache_filename_reads_back (t : datetime) :
  check_fields t = true -> 1000 <= year t ->
  PyStr.startswith (cache_filename_at t) SINGAPORE_CACHE_FOLDER = true
  /\ PyStr.endswith (cache_filename_at t) ".json" = true
  /\ file_timestamp (cache_filename_at t) = Some (whole_second t).
Proof.
  intros Hc Hy. pose proof (strftime_chars t Hc) as Hchars.
  pose proof (strptime_strftime t Hc Hy) as Hparse.
  split; [reflexivity | split].
  - unfold cache_filename_at. rewrite <- append_assoc. apply endswith_app.
  - unfold file_timestamp, cache_filename_at, PyStr.replace.
    generalize dependent (strftime t). intros ts Hchars Hparse.
    rewrite replace_folder_prefix. unfold SINGAPORE_CACHE_FOLDER.
    rewrite replace_from_keep
      by (revert Hchars; apply string_forall_weaken; intros c;
          unfold timestamp_char; rewrite !andb_true_iff; tauto).
    change (PyStr.replace_from "singapore-cache/" "" O ".json") with ".json".
    rewrite replace_from_keep
      by (revert Hchars; apply string_forall_weaken; intros c;
          unfold timestamp_char; rewrite !andb_true_iff; tauto).
    change (PyStr.replace_from ".json" "" O ".json") with ""%string.
    rewrite append_empty_r. exact Hparse.
Qed.

Lemma whole_second_leb (a b : datetime) :
  leb a b = true -> leb (whole_second a) (whole_second b) = true.
Proof.
  rewrite !leb_gtb. intros H.
  destruct (gtb (whole_second a) (whole_second b)) eqn:E; [ | reflexivity].
  exfalso. apply gtb_spec in E. unfold whole_second in E. simpl in E.
  destruct (gtb a b) eqn:E'; [discriminate | ].
  assert (Hn : ~ gtb a b = true) by congruence.
  rewrite gtb_spec in Hn. lia.
Qed.


(* ================================================================= *)
(** ** The scan of the cache folder *)

Lemma within_expiry_spec (now ts : datetime) :
  within_expiry now ts = true
  <-> PyDatetime.sub now ts <= timedelta_minutes CACHE_EXPIRY_MINUTES.
Proof. unfold within_expiry. apply Z.leb_le. Qed.

Lemma scan_blob_app (now : datetime) (acc : list (Blob * datetime)) (b : Blob) :
  scan_blob now acc b = (acc ++ kept now b)%list.
Proof.
  unfold kept, scan_blob.
  destruct (PyStr.endswith (blob_name b) ".json");
    [ | now rewrite app_nil_r].
  destruct (file_timestamp (blob_name b)) as [ts | ];
    [ | now rewrite app_nil_r].
  destruct (within_expiry now ts); [reflexivity | now rewrite app_nil_r].
Qed.

Lemma fold_scan_app (now : datetime) (blobs : list Blob) :
  forall acc, fold_left (scan_blob now) blobs acc
              = (acc ++ scan_blobs now blobs)%list.
Proof.
  unfold scan_blobs.
  induction blobs as [ | b blobs IH]; intros acc; simpl.
  - now rewrite app_nil_r.
  - rewrite (IH (scan_blob now acc b)), (IH (scan_blob now [] b)).
    rewrite (scan_blob_app now acc b). now rewrite app_assoc.
Qed.

Lemma scan_blobs_cons (now : datetime) (b : Blob) (blobs : list Blob) :
  scan_blobs now (b :: blobs) = (kept now b ++ scan_blobs now blobs)%list.
Proof. unfold scan_blobs at 1. simpl. apply fold_scan_app. Qed.


Lemma kept_spec (now : datetime) (b b' : Blob) (ts : datetime) :
  In (b', ts) (kept now b) <-> b' = b /\ qualifies now b ts.
Proof.
  unfold kept, scan_blob, qualifies.
  destruct (PyStr.endswith (blob_name b) ".json");
    [ | simpl; intuition discriminate].
  destruct (file_timestamp (blob_name b)) as [ts0 | ];
    [ | simpl; intuition discriminate].
  destruct (within_expiry now ts0) eqn:E; simpl.
  - apply within_expiry_spec in E. split.
    + intros [H | []]. inversion H; subst. auto.
    + intros [-> (_ & H & _)]. inversion H; subst. auto.
  - split; [intros [] | ].
    intros [_ (_ & H & Hle)]. inversion H; subst.
    apply within_expiry_spec in Hle. congruence.
Qed.

(** [valid_blobs] holds exactly the listed blobs that qualify. *)
Lemma scan_blobs_spec (now : datetime) (blobs : list Blob) (b : Blob) (ts : datetime) :
  In (b, ts) (scan_blobs now blobs) <-> In b blobs /\ qualifies now b ts.
Proof.
  induction blobs as [ | b0 blobs IH].
  - simpl. intuition.
  - rewrite scan_blobs_cons, in_app_iff, kept_spec, IH. simpl.
    split.
    + intros [[-> H] | [H1 H2]]; auto.
    + intros [[-> | H1] H2]; auto.
Qed.

Lemma max_by_timestamp_in (rest : list (Blob * datetime)) :
  forall best, In (max_by_timestamp best rest) (best :: rest).
Proof.
  induction rest as [ | x rest IH]; intros best; simpl.
  - auto.
  - destruct (IH (if gtb (snd x) (snd best) then x else best)) as [H | H].
    + rewrite <- H. destruct (gtb (snd x) (snd best)); auto.
    + auto.
Qed.

Lemma max_by_timestamp_ge (rest : list (Blob * datetime)) :
  forall best x, In x (best :: rest) ->
    leb (snd x) (snd (max_by_timestamp best rest)) = true.
Proof.
  induction rest as [ | y rest IH]; intros best x Hx; simpl.
  - destruct Hx as [<- | []]. apply leb_refl.
  - destruct Hx as [<- | [<- | Hx]].
    + apply leb_trans with (b := snd (if gtb (snd y) (snd best) then y else best)).
      * destruct (gtb (snd y) (snd best)) eqn:E;
          [now apply gtb_leb | apply leb_refl].
      * apply IH. now left.
    + apply leb_trans with (b := snd (if gtb (snd y) (snd best) then y else best)).
      * destruct (gtb (snd y) (snd best)) eqn:E; [apply leb_refl | ].
        rewrite leb_gtb, E. reflexivity.
      * apply IH. now left.
    + apply IH. now right.
Qed.

(** The result of [get_latest_cache_file] when the listing succeeds. *)
Lemma get_latest_cache_file_listed (w : World) :
  snd (list_blobs w) = None ->
  get_latest_cache_file w =
    ([EvListBlobs SINGAPORE_CACHE_FOLDER],
     Ok match scan_blobs (now_at_scan w) (fst (list_blobs w)) with
        | x :: r => Some (max_by_timestamp x r)
        | [] => None
        end).
Proof.
  intros H. unfold get_latest_cache_file. rewrite H.
  destruct (scan_blobs (now_at_scan w) (fst (list_blobs w))); reflexivity.
Qed.

(** The result of [get_latest_cache_file] when the listing fails. *)
Lemma get_latest_cache_file_failed (w : World) (e : exn) :
  snd (list_blobs w) = Some e ->
  get_latest_cache_file w =
    ([EvListBlobs SINGAPORE_CACHE_FOLDER; EvLog WARNING (LCacheCheckError e)],
     Ok None).
Proof. intros H. unfold get_latest_cache_file. rewrite H. reflexivity. Qed.

(** [get_latest_cache_file] never raises. *)
Lemma get_latest_cache_file_total (w : World) :
  exists r, result (get_latest_cache_file w) = Ok r.
Proof.
  destruct (snd (list_blobs w)) as [e | ] eqn:E.
  - rewrite (get_latest_cache_file_failed w e E). now eexists.
  - rewrite (get_latest_cache_file_listed w E). now eexists.
Qed.

(* ================================================================= *)
(** ** The keys [strptime] reads *)

Import KeyFormat.





















(** What the scan returns when the listing succeeds. *)
Lemma scan_returns_maximum (w : World) :
  snd (list_blobs w) = None ->
  match result (get_latest_cache_file w) with
  | Ok (Some (b, ts)) =>
      In b (fst (list_blobs w))
      /\ qualifies (now_at_scan w) b ts
      /\ forall b' ts', In b' (fst (list_blobs w)) ->
           qualifies (now_at_scan w) b' ts' -> leb ts' ts = true
  | Ok None =>
      forall b' ts', In b' (fst (list_blobs w)) ->
        ~ qualifies (now_at_scan w) b' ts'
  | Raise _ => False
  end.
Proof.
  intros Hlist. rewrite (get_latest_cache_file_listed w Hlist).
  unfold result; simpl.
  destruct (scan_blobs (now_at_scan w) (fst (list_blobs w))) as [ | x r] eqn:E.
  - intros b' ts' Hin Hq.
    assert (H : In (b', ts') (scan_blobs (now_at_scan w) (fst (list_blobs w))))
      by (apply scan_blobs_spec; auto).
    rewrite E in H. exact H.
  - pose proof (max_by_timestamp_in r x) as Hin.
    pose proof (max_by_timestamp_ge r x) as Hge.
    destruct (max_by_timestamp x r) as [b ts].
    rewrite <- E in Hin. apply scan_blobs_spec in Hin.
    destruct Hin as [Hin Hq]. split; [exact Hin | split; [exact Hq | ]].
    intros b' ts' Hin' Hq'.
    apply (Hge (b', ts')). rewrite <- E. apply scan_blobs_spec. auto.
Qed.


Lemma cmp_opp (a b : datetime) : cmp b a = CompOpp (cmp a b).
Proof.
  unfold cmp.
  rewrite (Z.compare_antisym (year a) (year b)),
          (Z.compare_antisym (month a) (month b)),
          (Z.compare_antisym (day a) (day b)),
          (Z.compare_antisym (hour a) (hour b)),
          (Z.compare_antisym (minute a) (minute b)),
          (Z.compare_antisym (second a) (second b)),
          (Z.compare_antisym (microsecond a) (microsecond b)).
  destruct (year a ?= year b); simpl; try reflexivity.
  destruct (month a ?= month b); simpl; try reflexivity.
  destruct (day a ?= day b); simpl; try reflexivity.
  destruct (hour a ?= hour b); simpl; try reflexivity.
  destruct (minute a ?= minute b); simpl; try reflexivity.
  destruct (second a ?= second b); simpl; reflexivity.
Qed.

(** [a < b] is [b > a]. *)
Lemma ltb_gtb (a b : datetime) : ltb a b = gtb b a.
Proof. unfold ltb, gtb. rewrite (cmp_opp a b). destruct (cmp a b); reflexivity. Qed.


(** C10. A listed blob whose timestamp is strictly later than the current
    time counts as within the expiry time, however far in the future it
    lies; the scan then returns an entry at least as late, and returns this
    very blob when every other qualifying blob is strictly earlier. *)
Theorem future_entry_is_selectable (w : World) (b : Blob) (ts : datetime) :
  snd (list_blobs w) = None ->
  check_fields (now_at_scan w) = true ->
  In b (fst (list_blobs w)) ->
  PyStr.endswith (blob_name b) ".json" = true ->
  file_timestamp (blob_name b) = Some ts ->
  ltb (now_at_scan w) ts = true ->
  PyDatetime.sub (now_at_scan w) ts < 0
  /\ qualifies (now_at_scan w) b ts
  /\ exists b' ts',
       result (get_latest_cache_file w) = Ok (Some (b', ts'))
       /\ leb ts ts' = true
       /\ ltb (now_at_scan w) ts' = true
       /\ ((forall b2 ts2, In b2 (fst (list_blobs w)) ->
              qualifies (now_at_scan w) b2 ts2 ->
              b2 = b \/ gtb ts ts2 = true) ->
           b' = b /\ ts' = ts).
Proof.
  intros Hlist Hnow Hin Hsuffix Hparse Hlater.
  assert (Hts : check_fields ts = true) by (eapply strptime_check; exact Hparse).
  assert (Hgt : gtb ts (now_at_scan w) = true) by (now rewrite <- ltb_gtb).
  apply (gtb_to_us ts (now_at_scan w) Hts Hnow) in Hgt.
  assert (Hneg : PyDatetime.sub (now_at_scan w) ts < 0)
    by (rewrite sub_to_us; lia).
  assert (Hq : qualifies (now_at_scan w) b ts).
  { unfold qualifies. repeat split; auto.
    unfold timedelta_minutes, CACHE_EXPIRY_MINUTES. lia. }
  split; [exact Hneg | split; [exact Hq | ]].
  pose proof (scan_returns_maximum w Hlist) as Hmax.
  destruct (result (get_latest_cache_file w)) as [[[b' ts'] | ] | e].
  - destruct Hmax as (Hin' & Hq' & Hmax).
    exists b', ts'. split; [reflexivity | ].
    assert (Hle : leb ts ts' = true) by (apply (Hmax b ts); auto).
    assert (Hts' : check_fields ts' = true).
    { destruct Hq' as (_ & H & _). eapply strptime_check; exact H. }
    split; [exact Hle | split].
    + apply (leb_to_us ts ts' Hts Hts') in Hle.
      rewrite ltb_gtb.
      apply (gtb_to_us ts' (now_at_scan w) Hts' Hnow). lia.
    + intros Hothers. destruct (Hothers b' ts' Hin' Hq') as [-> | Hg].
      * split; [reflexivity | ].
        destruct Hq' as (_ & H & _). congruence.
      * exfalso. rewrite leb_gtb, Hg in Hle. discriminate.
  - exfalso. exact (Hmax b ts Hin Hq).
  - contradiction.
Qed.


Section Normalization.

Variable float_of_str : string -> outcome spec_float.

Lemma dict_get_absent (d : list (string * pyval)) (key : string) (default : pyval) :
  dict_has d key = false -> dict_get d key default = default.
Proof.
  induction d as [ | [k v] d IH]; [reflexivity | ].
  simpl. destruct (String.eqb k key); [discriminate | exact IH].
Qed.

Lemma float_of_zero : py_float float_of_str (PInt 0) = Ok float_zero.
Proof. reflexivity. Qed.

Ltac absent_key H :=
  match type of H with
  | dict_has ?d ?key = false =>
      repeat match goal with
             | E : context [dict_get d key ?dflt] |- _ =>
                 rewrite (dict_get_absent d key dflt H) in E
             end
  end;
  repeat match goal with
         | E : py_float float_of_str (PInt 0) = Ok _ |- _ =>
             rewrite float_of_zero in E; inversion E; clear E
         end;
  subst; cbn; try reflexivity; try congruence.

(** C5. In the dict built for a vessel object, a numeric field the object
    lacks is [0.0] and a string field it lacks is the empty string, except
    [latitudeDegrees] and [longitudeDegrees]: when the object lacks one of
    them, it takes the value [latitude] (resp. [longitude]) gets, which is
    [float] of the object's [latitude] (resp. [longitude]) and [0.0] only
    if that is lacking too. *)
Theorem normalization_defaults (d : list (string * pyval)) (out : pyval) :
  transform_ship float_of_str (PDict d) = Ok out ->
  (forall key, In key numeric_particulars -> dict_has d key = false ->
     particular out key = PFloat float_zero)
  /\ (forall key, In key string_particulars -> dict_has d key = false ->
        particular out key = PStr "")
  /\ (forall key, In key numeric_readings -> dict_has d key = false ->
        field out key = PFloat float_zero)
  /\ (dict_has d "timeStamp" = false -> field out "timeStamp" = PStr "")
  /\ (exists lat lon,
        py_float float_of_str (dict_get d "latitude" (PInt 0)) = Ok lat
        /\ py_float float_of_str (dict_get d "longitude" (PInt 0)) = Ok lon
        /\ field out "latitude" = PFloat lat
        /\ field out "longitude" = PFloat lon
        /\ (dict_has d "latitudeDegrees" = false ->
              field out "latitudeDegrees" = PFloat lat)
        /\ (dict_has d "longitudeDegrees" = false ->
              field out "longitudeDegrees" = PFloat lon)).
Proof.
  intros H. unfold transform_ship, get_str, get_float, get_float_or, py_get in H.
  cbn [obind] in H.
  repeat match type of H with
         | context [py_float float_of_str ?v] =>
             let E := fresh "E" in
             destruct (py_float float_of_str v) eqn:E;
             [cbn [obind] in H | discriminate H]
         end.
  inversion H; subst out; clear H.
  unfold numeric_particulars, string_particulars, numeric_readings.
  split; [ | split; [ | split; [ | split]]].
  - intros key Hin Hhas. simpl in Hin.
    repeat (destruct Hin as [<- | Hin]; [absent_key Hhas | ]).
    contradiction.
  - intros key Hin Hhas. simpl in Hin.
    repeat (destruct Hin as [<- | Hin];
            [cbn; now rewrite (dict_get_absent d _ _ Hhas) | ]).
    contradiction.
  - intros key Hin Hhas. simpl in Hin.
    repeat (destruct Hin as [<- | Hin]; [absent_key Hhas | ]).
    contradiction.
  - intros Hhas. cbn. now rewrite (dict_get_absent d _ _ Hhas).
  - eexists. eexists. split; [reflexivity | ]. split; [reflexivity | ].
    split; [reflexivity | ]. split; [reflexivity | ].
    split; intros Hhas; cbn;
      match goal with
      | E : context [dict_get d _ (dict_get d _ _)] |- _ => idtac
      end;
      repeat match goal with
             | E : context [dict_get d ?key (dict_get d ?k2 ?z)] |- _ =>
                 rewrite (dict_get_absent d key (dict_get d k2 z) Hhas) in E
             end;
      congruence.
Qed.

End Normalization.


(* ================================================================= *)
(** ** The handler *)

Lemma bind_ret_l {A B} (a : A) (f : A -> M B) : bind (ret a) f = f a.
Proof. unfold bind, ret. destruct (f a). reflexivity. Qed.

Lemma trace_bind_l {A B} (m : M A) (f : A -> M B) (ev : event) :
  In ev (trace m) -> In ev (trace (bind m f)).
Proof.
  destruct m as [t [a | e]]; unfold bind, trace; simpl; [ | auto].
  destruct (f a) as [t' r]. simpl. intros H. apply in_or_app. now left.
Qed.

Lemma trace_bind_r {A B} (m : M A) (f : A -> M B) (a : A) (ev : event) :
  result m = Ok a -> In ev (trace (f a)) -> In ev (trace (bind m f)).
Proof.
  destruct m as [t r]. unfold result, bind, trace. simpl. intros ->.
  destruct (f a) as [t' r']. simpl. intros H. apply in_or_app. now right.
Qed.

Lemma trace_try_except {A} (m : M A) (h : exn -> M A) (ev : event) :
  In ev (trace m) -> In ev (trace (try_except m h)).
Proof.
  destruct m as [t [a | e]]; unfold try_except, trace; simpl; [auto | ].
  destruct (h e) as [t' r]. simpl. intros H. apply in_or_app. now left.
Qed.

Lemma cache_writes_app (t1 t2 : list event) :
  cache_writes (t1 ++ t2) = (cache_writes t1 ++ cache_writes t2)%list.
Proof.
  induction t1 as [ | ev t1 IH]; [reflexivity | ].
  destruct ev; simpl; rewrite ?IH; reflexivity.
Qed.

(** The events of a scan: the listing, and a warning when it failed. *)
Lemma get_latest_cache_file_trace (w : World) :
  cache_writes (trace (get_latest_cache_file w)) = []
  /\ existsb is_network_call (trace (get_latest_cache_file w)) = false.
Proof.
  destruct (snd (list_blobs w)) as [e | ] eqn:E.
  - rewrite (get_latest_cache_file_failed w e E). split; reflexivity.
  - rewrite (get_latest_cache_file_listed w E). split; reflexivity.
Qed.

Lemma all_space_lstrip (s : string) :
  PyStr.all_space s = true -> PyStr.lstrip s = "".
Proof.
  induction s as [ | c s IH]; [reflexivity | ].
  simpl. destruct (PyStr.isspace c); [exact IH | discriminate].
Qed.

Lemma lstrip_head (s : string) :
  match PyStr.lstrip s with
  | String c _ => PyStr.isspace c = false
  | EmptyString => PyStr.all_space s = true
  end.
Proof.
  induction s as [ | c s IH]; [reflexivity | ].
  simpl. destruct (PyStr.isspace c) eqn:E; simpl.
  - exact IH.
  - exact E.
Qed.

Lemma rstrip_empty (s : string) :
  PyStr.rstrip s = "" -> PyStr.all_space s = true.
Proof.
  induction s as [ | c s IH]; [reflexivity | ].
  simpl. destruct (PyStr.rstrip s) eqn:E.
  - destruct (PyStr.isspace c); [intros _; now apply IH | discriminate].
  - discriminate.
Qed.

(** The test of line 256 holds exactly for the empty and the
    whitespace-only keys. *)
Lemma api_key_missing_spec (k : string) :
  api_key_missing k = PyStr.all_space k.
Proof.
  unfold api_key_missing, PyStr.strip.
  destruct (PyStr.all_space k) eqn:E.
  - rewrite (all_space_lstrip k E). simpl. apply orb_true_r.
  - destruct k as [ | c k]; [discriminate | ].
    cbn [PyStr.truthy negb orb].
    pose proof (lstrip_head (String c k)) as H.
    destruct (PyStr.lstrip (String c k)) as [ | c' s'] eqn:El; [congruence | ].
    destruct (String.eqb_spec (PyStr.rstrip (String c' s')) "") as [Hr | Hr];
      [ | reflexivity].
    apply rstrip_empty in Hr. simpl in Hr. rewrite H in Hr. discriminate.
Qed.

Section HandlerProperties.

Variable json_loads : string -> outcome pyval.
Variable json_dumps : pyval -> string.
Variable float_of_str : string -> outcome spec_float.

Local Notation "'handler'" :=
  (get_singapore_ship_data json_loads json_dumps float_of_str).
Local Notation "'fetch'" := (fetch_fresh json_dumps float_of_str).

(** With a key that passes line 256, the handler is the cache check
    followed by one of its two branches. *)
Lemma handler_with_key (w : World) (k : string) :
  api_key_missing k = false ->
  handler w k =
    try_except
      (cached <- get_latest_cache_file w ;;
       match cached with
       | Some (cached_blob, cache_timestamp) =>
           read_cached json_loads cached_blob cache_timestamp
       | None => fetch w k
       end)
      handle_exception.
Proof.
  intros H. unfold get_singapore_ship_data. rewrite H.
  rewrite bind_ret_l. reflexivity.
Qed.

(** The handler with a missing key: nothing but the error log happens. *)
Lemma handler_without_key (w : World) (k : string) :
  api_key_missing k = true ->
  handler w k =
    ([EvLog ERROR LFailedException],
     Raise (HTTPException 500 (DStr (HTTPException 400 DApiKeyRequired)))).
Proof. intros H. unfold get_singapore_ship_data. rewrite H. reflexivity. Qed.

(** C2. An empty or whitespace-only key stops the handler at line 257,
    before any call to the network or the store; but the [HTTPException]
    with status 400 raised there is caught by the [except Exception] clause
    of line 336, and the client is answered with status 500. *)
Theorem blank_api_key_answered_500 (w : World) (k : string) :
  PyStr.all_space k = true ->
  result (handler w k)
    = Raise (HTTPException 500 (DStr (HTTPException 400 DApiKeyRequired)))
  /\ http_status (result (handler w k)) = 500
  /\ existsb is_network_call (trace (handler w k)) = false
  /\ existsb is_store_call (trace (handler w k)) = false.
Proof.
  intros H. rewrite <- api_key_missing_spec in H.
  rewrite (handler_without_key w k H). repeat split.
Qed.

(** C1. With a valid key and no valid cache, a non-success upstream answer
    makes the handler raise an [HTTPException] with status 502 carrying the
    upstream status, and no cache write is attempted; but that exception is
    caught by the [except Exception] clause of line 336, and the client is
    answered with status 500. *)
Theorem upstream_failure_answered_500 (w : World) (k : string) (r : Response) :
  api_key_missing k = false ->
  result (get_latest_cache_file w) = Ok None ->
  upstream_get w k = Ok r ->
  is_success r = false ->
  result (handler w k)
    = Raise (HTTPException 500
               (DStr (HTTPException 502 (DFetchFailed (status_code r)))))
  /\ http_status (result (handler w k)) = 500
  /\ cache_writes (trace (handler w k)) = [].
Proof.
  intros Hk Hscan Hget Hstatus.
  rewrite (handler_with_key w k Hk).
  pose proof (get_latest_cache_file_trace w) as [Hw _].
  destruct (get_latest_cache_file w) as [t c]. unfold result in Hscan.
  simpl in Hscan, Hw. subst c.
  unfold fetch_fresh. rewrite Hget. simpl. rewrite Hstatus. simpl.
  repeat split. rewrite !cache_writes_app, Hw. reflexivity.
Qed.

(** C9. When the listing of the cache folder fails, at once or after some
    blobs, [get_latest_cache_file] logs a warning and returns no entry, and
    the handler goes on to call the upstream API. *)
Theorem store_failure_is_no_entry (w : World) (e : exn) (k : string) :
  snd (list_blobs w) = Some e ->
  get_latest_cache_file w =
    ([EvListBlobs SINGAPORE_CACHE_FOLDER; EvLog WARNING (LCacheCheckError e)],
     Ok None)
  /\ (api_key_missing k = false -> In (EvHttpGet k) (trace (handler w k))).
Proof.
  intros H. split; [exact (get_latest_cache_file_failed w e H) | ].
  intros Hk. rewrite (handler_with_key w k Hk).
  apply trace_try_except.
  apply trace_bind_r with (a := None).
  - rewrite (get_latest_cache_file_failed w e H). reflexivity.
  - unfold fetch_fresh.
    apply trace_bind_r with (a := tt); [reflexivity | ].
    apply trace_bind_l. simpl. auto.
Qed.

Lemma result_bind_ok {A B} (t : list event) (a : A) (f : A -> M B) :
  result (bind (t, Ok a) f) = result (f a).
Proof. unfold bind, result. destruct (f a). reflexivity. Qed.

Lemma result_try_except_bind {A B} (t : list event) (a : A) (f : A -> M B)
    (h : exn -> M B) :
  result (try_except (bind (t, Ok a) f) h) = result (try_except (f a) h).
Proof.
  unfold bind, try_except, result. destruct (f a) as [t' [b | e]]; simpl.
  - reflexivity.
  - destruct (h e). reflexivity.
Qed.

Lemma trace_try_except_bind {A B} (t : list event) (a : A) (f : A -> M B)
    (h : exn -> M B) :
  trace (try_except (bind (t, Ok a) f) h)
  = (t ++ trace (try_except (f a) h))%list.
Proof.
  unfold bind, try_except, trace. destruct (f a) as [t' [b | e]]; simpl.
  - reflexivity.
  - destruct (h e). simpl. now rewrite app_assoc.
Qed.

(** A scan that returns an entry has listed the folder without error. *)
Lemma get_latest_cache_file_some (w : World) (b : Blob) (ts : datetime) :
  result (get_latest_cache_file w) = Ok (Some (b, ts)) ->
  get_latest_cache_file w
  = ([EvListBlobs SINGAPORE_CACHE_FOLDER], Ok (Some (b, ts))).
Proof.
  destruct (snd (list_blobs w)) as [e | ] eqn:E.
  - rewrite (get_latest_cache_file_failed w e E). discriminate.
  - rewrite (get_latest_cache_file_listed w E). unfold result. simpl.
    intros H. rewrite H. reflexivity.
Qed.

(** The handlers of lines 330-338 log and raise; they perform no call. *)
Lemma handle_exception_trace (e : exn) :
  cache_writes (trace (handle_exception e)) = []
  /\ existsb is_network_call (trace (handle_exception e)) = false
  /\ exists e', result (handle_exception e) = Raise e'.
Proof. destruct e; simpl; repeat split; eexists; reflexivity. Qed.

(** The branch of lines 262-266, spelled out. *)
Lemma read_cached_cases (b : Blob) (ts : datetime) :
  read_cached json_loads b ts =
    ([EvLog INFO (LUsingCached ts); EvDownload (blob_name b)],
     content <-- download_as_text b ;; json_loads content).
Proof.
  unfold read_cached.
  destruct (download_as_text b) as [content | e]; simpl; [ | reflexivity].
  destruct (json_loads content); reflexivity.
Qed.

(** C7. When the scan yields a fresh entry, the handler downloads that
    blob and decodes it, calls neither the upstream API nor the store's
    write, and returns the decoded payload as it is. *)
Theorem fresh_cache_is_served (w : World) (k : string) (b : Blob) (ts : datetime) :
  api_key_missing k = false ->
  result (get_latest_cache_file w) = Ok (Some (b, ts)) ->
  In (EvDownload (blob_name b)) (trace (handler w k))
  /\ existsb is_network_call (trace (handler w k)) = false
  /\ cache_writes (trace (handler w k)) = []
  /\ (forall content data,
        download_as_text b = Ok content -> json_loads content = Ok data ->
        handler w k =
          ([EvListBlobs SINGAPORE_CACHE_FOLDER;
            EvLog INFO (LUsingCached ts);
            EvDownload (blob_name b)],
           Ok data)).
Proof.
  intros Hk Hscan. rewrite (handler_with_key w k Hk).
  rewrite (get_latest_cache_file_some w b ts Hscan).
  rewrite trace_try_except_bind, read_cached_cases.
  split; [ | split; [ | split]].
  - apply in_or_app. right. apply trace_try_except. simpl. auto.
  - destruct (content <-- download_as_text b ;; json_loads content) as [d | e];
      [reflexivity | ].
    destruct (handle_exception_trace e) as (_ & Hn & _).
    unfold try_except. destruct (handle_exception e) as [t' r'].
    unfold trace in *. simpl in *. exact Hn.
  - destruct (content <-- download_as_text b ;; json_loads content) as [d | e];
      [reflexivity | ].
    destruct (handle_exception_trace e) as (Hc & _ & _).
    unfold try_except. destruct (handle_exception e) as [t' r'].
    unfold trace in *. simpl in *. exact Hc.
  - intros content data Hd Hj. unfold bind.
    rewrite read_cached_cases, Hd. simpl. rewrite Hj. reflexivity.
Qed.

(** [save_to_cache] spelled out: without a client, one error line; with
    one, one upload under the name made from the clock, then one log line;
    it never raises. *)
Lemma save_to_cache_cases (w : World) (data : pyval) :
  save_to_cache json_dumps w data =
    let name := cache_filename_at (now_at_save w) in
    let body := json_dumps data in
    match save_bucket w with
    | Raise e => ([EvLog ERROR (LSaveFailed e)], Ok None)
    | Ok bucket =>
        match bucket name body with
        | Some e => ([EvUpload name body; EvLog ERROR (LSaveFailed e)], Ok None)
        | None => ([EvUpload name body; EvLog INFO (LCached name)], Ok (Some name))
        end
    end.
Proof.
  unfold save_to_cache, cache_filename_at. simpl.
  destruct (save_bucket w) as [bucket | e]; [ | reflexivity].
  simpl. destruct (bucket _ _); reflexivity.
Qed.


(** The fetch of lines 268-328 when the upstream answer is a success whose
    body decodes and normalizes. *)
Lemma fetch_fresh_success (w : World) (k : string) (r : Response)
    (api_data : pyval) (data : list pyval) :
  upstream_get w k = Ok r -> is_success r = true ->
  json r = Ok api_data -> transform float_of_str api_data = Ok data ->
  fetch w k =
    (([EvLog INFO LNoValidCache; EvHttpGet k]
      ++ trace (save_to_cache json_dumps w (PList data))
      ++ [EvLog INFO LFetched])%list,
     Ok (PList data)).
Proof.
  intros Hget Hs Hj Ht. unfold fetch_fresh. rewrite Hget. simpl.
  rewrite Hs. simpl. rewrite Hj. simpl. rewrite Ht. simpl.
  rewrite save_to_cache_cases. simpl.
  destruct (save_bucket w) as [bucket | e]; [ | reflexivity].
  destruct (bucket _ _); reflexivity.
Qed.


(** The name of a cache write reads back as an instant less than a second
    before every clock reading that is not after the one it was made
    from. *)
Lemma whole_second_within_a_second (a b : datetime) :
  check_fields a = true -> check_fields b = true -> leb a b = true ->
  leb (whole_second b) b = true
  /\ 0 <= PyDatetime.sub b (whole_second b) < 1000000
  /\ PyDatetime.sub a (whole_second b) < 1000000.
Proof.
  intros Ha Hb Hab.
  assert (Hwb : check_fields (whole_second b) = true).
  { rewrite check_fields_spec in Hb |- *. destruct b; simpl in *. lia. }
  assert (Hus : to_us b = to_us (whole_second b) + microsecond b
                /\ 0 <= microsecond b < 1000000).
  { rewrite check_fields_spec in Hb. destruct b; unfold to_us, toordinal;
      simpl in *. lia. }
  rewrite (leb_to_us a b Ha Hb) in Hab.
  rewrite (leb_to_us (whole_second b) b Hwb Hb).
  rewrite !sub_to_us. lia.
Qed.

(** C6, as the code has it. After a valid key, no valid cache, a success
    answer whose body decodes and normalizes, the handler returns the
    normalized payload and attempts at most one cache write: none when the
    store client or the bucket cannot be had (then logged as an error),
    and otherwise exactly one, of the serialized payload, under the name
    made of the cache folder, the clock reading of [save_to_cache] printed
    as [%Y-%m-%d_%H-%M-%S], and the suffix, whether the upload succeeds or
    fails (then logged as an error). The name reads back as that clock
    reading cut to the second: it is not after the clock reading of the
    write, and, when the clock does not go back, it is less than a second
    before the clock reading of the scan and not before the second of
    it. *)
Theorem fetched_data_is_cached_at_most_once
    (w : World) (k : string) (r : Response) (api_data : pyval) (data : list pyval) :
  api_key_missing k = false ->
  result (get_latest_cache_file w) = Ok None ->
  upstream_get w k = Ok r ->
  is_success r = true ->
  json r = Ok api_data ->
  transform float_of_str api_data = Ok data ->
  check_fields (now_at_scan w) = true ->
  check_fields (now_at_save w) = true ->
  1000 <= year (now_at_save w) ->
  leb (now_at_scan w) (now_at_save w) = true ->
  let name := cache_filename_at (now_at_save w) in
  let body := json_dumps (PList data) in
  result (handler w k) = Ok (PList data)
  /\ (forall e, save_bucket w = Raise e ->
        cache_writes (trace (handler w k)) = []
        /\ In (EvLog ERROR (LSaveFailed e)) (trace (handler w k)))
  /\ (forall bucket, save_bucket w = Ok bucket ->
        cache_writes (trace (handler w k)) = [(name, body)]
        /\ (forall e, bucket name body = Some e ->
              In (EvLog ERROR (LSaveFailed e)) (trace (handler w k)))
        /\ (bucket name body = None ->
              In (EvLog INFO (LCached name)) (trace (handler w k))))
  /\ PyStr.startswith name SINGAPORE_CACHE_FOLDER = true
  /\ PyStr.endswith name ".json" = true
  /\ file_timestamp name = Some (whole_second (now_at_save w))
  /\ leb (whole_second (now_at_save w)) (now_at_save w) = true
  /\ PyDatetime.sub (now_at_scan w) (whole_second (now_at_save w)) < 1000000
  /\ leb (whole_second (now_at_scan w)) (whole_second (now_at_save w)) = true.
Proof.
  intros Hk Hscan Hget Hs Hj Ht Hc0 Hc Hy Hclock name body.
  destruct (cache_filename_reads_back (now_at_save w) Hc Hy) as (Hp & Hsuf & Hts).
  destruct (whole_second_within_a_second _ _ Hc0 Hc Hclock) as (Hle & _ & Hlt).
  rewrite (handler_with_key w k Hk).
  pose proof (get_latest_cache_file_trace w) as [Hw _].
  destruct (get_latest_cache_file w) as [t c]. unfold result in Hscan.
  simpl in Hscan, Hw. subst c.
  rewrite result_try_except_bind, trace_try_except_bind.
  rewrite (fetch_fresh_success w k r api_data data
             Hget Hs Hj Ht).
  rewrite save_to_cache_cases. fold name. fold body.
  split; [reflexivity | ].
  split.
  { intros e He. rewrite He. unfold try_except, trace. simpl.
    split.
    - rewrite cache_writes_app, Hw. reflexivity.
    - apply in_or_app. right. simpl. auto. }
  split.
  { intros bucket Hb. rewrite Hb. split; [ | split].
    - unfold try_except, trace. simpl.
      rewrite cache_writes_app, Hw.
      destruct (bucket name body); reflexivity.
    - intros e He. unfold try_except, trace. simpl. rewrite He. simpl.
      apply in_or_app. right. simpl. auto.
    - intros He. unfold try_except, trace. simpl. rewrite He. simpl.
      apply in_or_app. right. simpl. auto. }
  split; [exact Hp | ]. split; [exact Hsuf | ]. split; [exact Hts | ].
  split; [exact Hle | ]. split; [exact Hlt | ].
  now apply whole_second_leb.
Qed.

(** The listing fails: the handler behaves as with an empty cache folder. *)
Lemma listing_failure_is_cache_miss
    (blobs : list Blob) (err : exn) (now now' : datetime)
    (up : string -> outcome Response) (ul : outcome (string -> string -> option exn))
    (k : string) :
  result (handler (mk_world (blobs, Some err) now up now' ul) k)
  = result (handler (mk_world ([], None) now up now' ul) k).
Proof.
  destruct (api_key_missing k) eqn:Hk.
  - rewrite !(handler_without_key _ k Hk).
    reflexivity.
  - rewrite !(handler_with_key _ k Hk).
    rewrite (get_latest_cache_file_failed
               (mk_world (blobs, Some err) now up now' ul) err eq_refl).
    rewrite (get_latest_cache_file_listed (mk_world ([], None) now up now' ul) eq_refl).
    cbn [list_blobs fst scan_blobs fold_left].
    rewrite !result_try_except_bind. reflexivity.
Qed.

(** The handler's result does not depend on what the cache write does. *)
Lemma write_failure_is_absorbed
    (listing : list Blob * option exn) (now now' : datetime)
    (up : string -> outcome Response) (ul ul' : outcome (string -> string -> option exn))
    (k : string) :
  result (handler (mk_world listing now up now' ul) k)
  = result (handler (mk_world listing now up now' ul') k).
Proof.
  destruct (api_key_missing k) eqn:Hk.
  - rewrite !(handler_without_key _ k Hk).
    reflexivity.
  - rewrite !(handler_with_key _ k Hk).
    change (get_latest_cache_file (mk_world listing now up now' ul'))
      with (get_latest_cache_file (mk_world listing now up now' ul)).
    destruct (get_latest_cache_file_total (mk_world listing now up now' ul))
      as [c Hc].
    destruct (get_latest_cache_file (mk_world listing now up now' ul)) as [t c0].
    unfold result in Hc. simpl in Hc. subst c0.
    rewrite !result_try_except_bind.
    destruct c as [[b ts] | ]; [reflexivity | ].
    destruct (up k) as [r | e1] eqn:Hget;
      [ | unfold fetch_fresh; cbn [upstream_get]; rewrite Hget; reflexivity].
    destruct (is_success r) eqn:Hs;
      [ | unfold fetch_fresh; cbn [upstream_get]; rewrite Hget; simpl;
          rewrite Hs; reflexivity].
    destruct (json r) as [api_data | e2] eqn:Hj;
      [ | unfold fetch_fresh; cbn [upstream_get]; rewrite Hget; simpl;
          rewrite Hs; simpl; rewrite Hj; reflexivity].
    destruct (transform float_of_str api_data) as [data | e3] eqn:Ht;
      [ | unfold fetch_fresh; cbn [upstream_get]; rewrite Hget; simpl;
          rewrite Hs; simpl; rewrite Hj; simpl; rewrite Ht; reflexivity].
    rewrite (fetch_fresh_success
               (mk_world listing now up now' ul) k r api_data data
               Hget Hs Hj Ht).
    rewrite (fetch_fresh_success
               (mk_world listing now up now' ul') k r api_data data
               Hget Hs Hj Ht).
    reflexivity.
Qed.

(** C3, as the code has it. A failure of the listing is absorbed: the
    handler then answers as with an empty cache folder. A failure of the
    cache write, or of getting the store client for it, is absorbed too:
    the answer does not depend on it. A failure to download or to decode
    the entry the scan found is not absorbed: the lookup then fails,
    without a call to the upstream API and without a cache write. Every
    failure of the handler is a rejected key, a found cache entry that
    cannot be downloaded or decoded, or a failed upstream fetch (the request
    raises, the status is no success, the body does not decode, or it does
    not normalize). *)
Theorem failures_that_reach_the_caller
    (blobs : list Blob) (err : option exn) (now now' : datetime)
    (up : string -> outcome Response) (ul : outcome (string -> string -> option exn))
    (k : string) :
  let w := mk_world (blobs, err) now up now' ul in
  (err <> None ->
     result (handler w k)
     = result (handler (mk_world ([], None) now up now' ul) k))
  /\ (forall ul',
        result (handler w k)
        = result (handler (mk_world (blobs, err) now up now' ul') k))
  /\ (forall b ts e',
        api_key_missing k = false ->
        result (get_latest_cache_file w) = Ok (Some (b, ts)) ->
        (content <-- download_as_text b ;; json_loads content) = Raise e' ->
        (exists e, result (handler w k) = Raise e)
        /\ existsb is_network_call (trace (handler w k)) = false
        /\ cache_writes (trace (handler w k)) = [])
  /\ (forall e, result (handler w k) = Raise e ->
        api_key_missing k = true
        \/ (exists b ts,
              result (get_latest_cache_file w) = Ok (Some (b, ts))
              /\ exists e',
                   (content <-- download_as_text b ;; json_loads content)
                   = Raise e')
        \/ (result (get_latest_cache_file w) = Ok None
            /\ exists e',
                 (response <-- upstream_get w k ;;
                  if is_success response
                  then api_data <-- json response ;;
                       transform float_of_str api_data
                  else Raise (HTTPException 502
                                (DFetchFailed (status_code response))))
                 = Raise e')).
Proof.
  intros w. split; [ | split; [ | split]].
  - destruct err as [e | ]; [intros _ | congruence].
    apply listing_failure_is_cache_miss.
  - intros ul'. apply write_failure_is_absorbed.
  - intros b ts e' Hk Hscan Hbad.
    rewrite (handler_with_key w k Hk).
    pose proof (get_latest_cache_file_trace w) as [Hw Hn].
    destruct (get_latest_cache_file w) as [t c]. unfold result in Hscan.
    simpl in Hscan, Hw, Hn. subst c.
    rewrite result_try_except_bind, trace_try_except_bind, read_cached_cases.
    rewrite Hbad.
    destruct (handle_exception_trace e') as (Hcw & Hnet & e & He).
    unfold try_except, trace, result in *. simpl.
    destruct (handle_exception e') as [t' r']. simpl in *.
    split; [exists e; exact He | ].
    rewrite existsb_app, cache_writes_app, Hw, Hn. simpl.
    split; [exact Hnet | exact Hcw].
  - intros e Hfail.
    destruct (api_key_missing k) eqn:Hk; [now left | right].
    rewrite (handler_with_key w k Hk) in Hfail.
    destruct (get_latest_cache_file_total w) as [c Hc].
    destruct (get_latest_cache_file w) as [t c0]. unfold result in Hc.
    simpl in Hc. subst c0.
    rewrite result_try_except_bind in Hfail.
    destruct c as [[b ts] | ].
    + left. exists b, ts. split; [reflexivity | ].
      rewrite read_cached_cases in Hfail.
      destruct (content <-- download_as_text b ;; json_loads content)
        as [d | e'].
      * discriminate.
      * now exists e'.
    + right. split; [reflexivity | ].
      destruct (upstream_get w k) as [r | e1] eqn:Hget; [ | now exists e1].
      simpl. destruct (is_success r) eqn:Hs; [ | now eexists].
      destruct (json r) as [api_data | e2] eqn:Hj; [ | now exists e2].
      simpl.
      destruct (transform float_of_str api_data) as [data | e3] eqn:Ht;
        [ | now exists e3].
      exfalso.
      rewrite (fetch_fresh_success w k r api_data data
                 Hget Hs Hj Ht) in Hfail.
      discriminate.
Qed.


End HandlerProperties.

(* ================================================================= *)
(** ** The theorems on sample runs *)

Import Sample.

Local Notation "'sample_handler'" :=
  (get_singapore_ship_data Sample.loads Sample.dumps Sample.float_of_str).

(** The scan of the sample folder at 10:06 returns the 10:05 entry. *)
Example scan_world_hit :
  result (get_latest_cache_file world_hit)
  = Ok (Some (blob_10_05, mk_datetime 2024 1 1 10 5 0 0)).
Proof. reflexivity. Qed.

(** Twenty minutes after the latest entry the scan returns no entry. *)
Example scan_stale :
  result (get_latest_cache_file
            (mk_world ([blob_10_00; blob_10_05], None)
               (mk_datetime 2024 1 1 10 25 0 0)
               (fun _ => Ok answer_200) at_10_06_01 store_ok))
  = Ok None.
Proof. reflexivity. Qed.

(** A vessel object with [latitude] 1.5 and no [latitudeDegrees]. *)
Example latitude_degrees_fallback :
  exists out,
    transform_ship Sample.float_of_str
      (PDict [("latitude", PFloat one_and_a_half)]) = Ok out
    /\ field out "latitudeDegrees" = PFloat one_and_a_half
    /\ field out "longitudeDegrees" = PFloat float_zero.
Proof. eexists. split; [reflexivity | split; reflexivity]. Qed.

(** A vessel object with neither. *)
Example latitude_default :
  exists out,
    transform_ship Sample.float_of_str (PDict []) = Ok out
    /\ field out "latitude" = PFloat float_zero
    /\ field out "latitudeDegrees" = PFloat float_zero.
Proof. eexists. split; [reflexivity | split; reflexivity]. Qed.





Lemma future_entry_is_selectable_witness :
  ltb (now_at_scan world_future) (mk_datetime 9999 12 31 23 59 59 0) = true
  /\ PyDatetime.sub (now_at_scan world_future)
       (mk_datetime 9999 12 31 23 59 59 0) < 0
  /\ qualifies (now_at_scan world_future) blob_year_9999
       (mk_datetime 9999 12 31 23 59 59 0).
Proof.
  split; [reflexivity | ].
  destruct (future_entry_is_selectable world_future blob_year_9999
              (mk_datetime 9999 12 31 23 59 59 0))
    as (Hneg & Hq & _).
  - reflexivity.
  - reflexivity.
  - simpl. auto.
  - reflexivity.
  - reflexivity.
  - reflexivity.
  - split; assumption.
Defined.

(** The name keeps whole seconds: written at 10:06:00.25, it reads back as
    10:06:00, a quarter of a second before the clock reading it names. *)
Example cache_filename_drops_microseconds :
  cache_filename_at at_10_06 = "singapore-cache/2024-01-01_10-06-00.json"%string
  /\ file_timestamp (cache_filename_at at_10_06)
     = Some (mk_datetime 2024 1 1 10 6 0 0)
  /\ ltb (mk_datetime 2024 1 1 10 6 0 0) at_10_06 = true.
Proof. repeat split. Qed.

(** The entry of year 9999 is the one the scan returns. *)
Example scan_world_future :
  result (get_latest_cache_file world_future)
  = Ok (Some (blob_year_9999, mk_datetime 9999 12 31 23 59 59 0)).
Proof. reflexivity. Qed.

Lemma normalization_defaults_witness :
  exists out,
    transform_ship Sample.float_of_str Sample.ship = Ok out
    /\ particular out "vesselName" = PStr "EVER GIVEN"
    /\ particular out "callSign" = PStr ""
    /\ particular out "vesselLength" = PFloat float_zero
    /\ field out "speed" = PFloat float_zero
    /\ field out "latitudeDegrees" = PFloat one_and_a_half
    /\ field out "longitudeDegrees" = PFloat float_zero.
Proof.
  eexists. split; [reflexivity | ].
  destruct (normalization_defaults Sample.float_of_str
              [("vesselName", PStr "EVER GIVEN");
               ("latitude", PFloat one_and_a_half)] _ eq_refl)
    as (Hnum & Hstr & Hread & _ & lat & lon & Hlat & Hlon & _ & _ & Hlatd & Hlond).
  split; [reflexivity | ].
  split; [apply Hstr; [simpl; auto | reflexivity] | ].
  split; [apply Hnum; [simpl; auto | reflexivity] | ].
  split; [apply Hread; [simpl; auto 6 | reflexivity] | ].
  split.
  - rewrite (Hlatd eq_refl). injection Hlat as <-. reflexivity.
  - rewrite (Hlond eq_refl). injection Hlon as <-. reflexivity.
Defined.

Lemma blank_api_key_answered_500_witness :
  PyStr.all_space "   " = true
  /\ http_status (result (sample_handler world_hit "   ")) = 500
  /\ existsb is_network_call (trace (sample_handler world_hit "   ")) = false
  /\ existsb is_store_call (trace (sample_handler world_hit "   ")) = false.
Proof.
  split; [reflexivity | ].
  destruct (blank_api_key_answered_500 Sample.loads Sample.dumps
              Sample.float_of_str world_hit "   " eq_refl)
    as (_ & H1 & H2 & H3).
  auto.
Defined.

Lemma upstream_failure_answered_500_witness :
  api_key_missing "key" = false
  /\ result (get_latest_cache_file world_503) = Ok None
  /\ upstream_get world_503 "key" = Ok answer_503
  /\ is_success answer_503 = false
  /\ result (sample_handler world_503 "key")
     = Raise (HTTPException 500 (DStr (HTTPException 502 (DFetchFailed 503))))
  /\ http_status (result (sample_handler world_503 "key")) = 500
  /\ cache_writes (trace (sample_handler world_503 "key")) = [].
Proof.
  repeat (split; [reflexivity | ]).
  apply (upstream_failure_answered_500 Sample.loads Sample.dumps
           Sample.float_of_str world_503 "key" answer_503); reflexivity.
Defined.

Lemma store_failure_is_no_entry_witness :
  snd (list_blobs world_store_down) = Some (StoreError "unavailable")
  /\ result (get_latest_cache_file world_store_down) = Ok None
  /\ In (EvHttpGet "key") (trace (sample_handler world_store_down "key")).
Proof.
  split; [reflexivity | ].
  destruct (store_failure_is_no_entry Sample.loads Sample.dumps
              Sample.float_of_str world_store_down (StoreError "unavailable")
              "key" eq_refl) as [H1 H2].
  split; [rewrite H1; reflexivity | apply H2; reflexivity].
Defined.

Lemma fresh_cache_is_served_witness :
  api_key_missing "key" = false
  /\ result (get_latest_cache_file world_hit)
     = Ok (Some (blob_10_05, mk_datetime 2024 1 1 10 5 0 0))
  /\ existsb is_network_call (trace (sample_handler world_hit "key")) = false
  /\ cache_writes (trace (sample_handler world_hit "key")) = []
  /\ result (sample_handler world_hit "key") = Ok (PList []).
Proof.
  split; [reflexivity | split; [reflexivity | ]].
  destruct (fresh_cache_is_served Sample.loads Sample.dumps Sample.float_of_str
              world_hit "key" blob_10_05 (mk_datetime 2024 1 1 10 5 0 0)
              eq_refl eq_refl) as (_ & Hn & Hc & Hr).
  split; [exact Hn | split; [exact Hc | ]].
  rewrite (Hr "[]"%string (PList []) eq_refl eq_refl). reflexivity.
Defined.

Lemma fetched_data_is_cached_at_most_once_witness :
  api_key_missing "key" = false
  /\ result (get_latest_cache_file world_store_down) = Ok None
  /\ leb (now_at_scan world_store_down) (now_at_save world_store_down) = true
  /\ (exists data,
        result (sample_handler world_store_down "key") = Ok (PList data)
        /\ cache_writes (trace (sample_handler world_store_down "key"))
           = [("singapore-cache/2024-01-01_10-06-01.json"%string,
               Sample.dumps (PList data))]
        /\ In (EvLog ERROR (LSaveFailed (StoreError "unavailable")))
             (trace (sample_handler world_store_down "key")))
  /\ PyDatetime.sub (now_at_scan world_store_down)
       (mk_datetime 2024 1 1 10 6 1 0) < 1000000.
Proof.
  split; [reflexivity | split; [reflexivity | split; [reflexivity | ]]].
  destruct (fetched_data_is_cached_at_most_once Sample.loads Sample.dumps
              Sample.float_of_str world_store_down "key" answer_200
              (PList [ship]) _ eq_refl eq_refl eq_refl eq_refl eq_refl eq_refl
              eq_refl eq_refl ltac:(simpl; lia) eq_refl)
    as (Hr & _ & Hb & _ & _ & _ & _ & Hlt & _).
  destruct (Hb _ eq_refl) as (Hw & Hfail & _).
  split; [ | exact Hlt].
  eexists.
  split; [exact Hr | split; [exact Hw | ]].
  apply Hfail. reflexivity.
Defined.

(** C6, two runs against the claim. In the first the lookup reads the
    clock at 10:06:00.25 and saves at 10:06:00.75: the clock did not go
    back, and the one cache write is named [2024-01-01_10-06-00], which
    reads back as 10:06:00, before the clock reading of the lookup. In the
    second the store client cannot be had when the answer is saved: the
    payload is returned and no cache write is attempted. *)
Lemma cache_name_precedes_the_lookup :
  api_key_missing "key" = false
  /\ result (get_latest_cache_file world_quick) = Ok None
  /\ upstream_get world_quick "key" = Ok answer_200
  /\ is_success answer_200 = true
  /\ leb (now_at_scan world_quick) (now_at_save world_quick) = true
  /\ (exists data,
        result (sample_handler world_quick "key") = Ok (PList data)
        /\ cache_writes (trace (sample_handler world_quick "key"))
           = [("singapore-cache/2024-01-01_10-06-00.json"%string,
               Sample.dumps (PList data))])
  /\ file_timestamp "singapore-cache/2024-01-01_10-06-00.json"
     = Some (mk_datetime 2024 1 1 10 6 0 0)
  /\ ltb (mk_datetime 2024 1 1 10 6 0 0) (now_at_scan world_quick) = true
  /\ result (get_latest_cache_file world_no_client) = Ok None
  /\ upstream_get world_no_client "key" = Ok answer_200
  /\ (exists data,
        result (sample_handler world_no_client "key") = Ok (PList data))
  /\ cache_writes (trace (sample_handler world_no_client "key")) = [].
Proof.
  repeat (split; [reflexivity | ]).
  split; [eexists; split; reflexivity | ].
  repeat (split; [reflexivity | ]).
  split; [eexists; reflexivity | reflexivity].
Qed.

(** C3, a run in which a cache failure is not absorbed: the key is valid,
    the scan finds a fresh entry, its download fails, and the handler fails
    with it, without any upstream call, instead of going on as it does with
    no cache available, where it fetches and answers. *)
Lemma unreadable_entry_fails_the_lookup :
  api_key_missing "key" = false
  /\ result (get_latest_cache_file world_unreadable)
     = Ok (Some (blob_unreadable, mk_datetime 2024 1 1 10 5 0 0))
  /\ download_as_text blob_unreadable = Raise (StoreError "unavailable")
  /\ result (sample_handler world_unreadable "key")
     = Raise (HTTPException 500 (DStr (StoreError "unavailable")))
  /\ existsb is_network_call (trace (sample_handler world_unreadable "key"))
     = false
  /\ (exists data, result (sample_handler world_miss "key") = Ok data)
  /\ result (sample_handler world_unreadable "key")
     <> result (sample_handler world_miss "key").
Proof.
  repeat (split; [reflexivity | ]).
  split; [eexists; reflexivity | ].
  vm_compute. discriminate.
Qed.

Lemma failures_that_reach_the_caller_witness :
  result (sample_handler world_unreadable "key")
  = Raise (HTTPException 500 (DStr (StoreError "unavailable")))
  /\ (exists b ts,
        result (get_latest_cache_file world_unreadable) = Ok (Some (b, ts))
        /\ exists e',
             (content <-- download_as_text b ;; Sample.loads content) = Raise e')
  /\ (exists e, result (sample_handler world_unreadable "key") = Raise e)
  /\ existsb is_network_call (trace (sample_handler world_unreadable "key"))
     = false
  /\ cache_writes (trace (sample_handler world_unreadable "key")) = [].
Proof.
  split; [reflexivity | ].
  destruct (failures_that_reach_the_caller Sample.loads Sample.dumps
              Sample.float_of_str [blob_unreadable] None at_10_06 at_10_06_01
              (fun _ => Ok answer_200) store_ok "key")
    as (_ & _ & Hbad & H).
  split.
  - destruct (H (HTTPException 500 (DStr (StoreError "unavailable"))) eq_refl)
      as [Hk | [Hc | [Hm _]]].
    + discriminate Hk.
    + exact Hc.
    + discriminate Hm.
  - exact (Hbad blob_unreadable (mk_datetime 2024 1 1 10 5 0 0)
             (StoreError "unavailable") eq_refl eq_refl eq_refl).
Defined.

(* ================================================================= *)
(** ** More on the cached lookup *)

Lemma handle_exception_shape (e : exn) :
  exists m c d, handle_exception e = ([EvLog ERROR m], Raise (HTTPException c d))
                /\ (c = 500 \/ c = 502).
Proof. destruct e; simpl; do 3 eexists; split; try reflexivity; auto. Qed.

Lemma mapM_raises {A B} (f : A -> outcome B) (l : list A) (x : A) (e : exn) :
  In x l -> f x = Raise e -> exists e', mapM f l = Raise e'.
Proof.
  induction l as [ | y l IH]; intros Hin Hx; [contradiction | ].
  simpl. destruct (f y) as [b | e1] eqn:E; [ | now exists e1].
  simpl. destruct Hin as [-> | Hin]; [congruence | ].
  destruct (IH Hin Hx) as [e' He']. rewrite He'. now exists e'.
Qed.

Lemma dict_get_present (d : list (string * pyval)) (key : string) (x y : pyval) :
  dict_has d key = true -> dict_get d key x = dict_get d key y.
Proof.
  induction d as [ | [k v] d IH]; [discriminate | ].
  simpl. destruct (String.eqb k key); [reflexivity | exact IH].
Qed.

Section LookupEffects.

Variable json_loads : string -> outcome pyval.
Variable json_dumps : pyval -> string.
Variable float_of_str : string -> outcome spec_float.

Local Notation "'handler'" :=
  (get_singapore_ship_data json_loads json_dumps float_of_str).

(** The lookup after a valid key and a scan without entry is the fetch. *)
Lemma handler_on_miss (w : World) (k : string) :
  api_key_missing k = false ->
  result (get_latest_cache_file w) = Ok None ->
  result (handler w k)
  = result (try_except (fetch_fresh json_dumps float_of_str w k) handle_exception)
  /\ cache_writes (trace (handler w k))
     = cache_writes
         (trace (try_except (fetch_fresh json_dumps float_of_str w k)
                   handle_exception)).
Proof.
  intros Hk Hscan.
  rewrite (handler_with_key json_loads json_dumps float_of_str w k Hk).
  pose proof (get_latest_cache_file_trace w) as [Hw _].
  destruct (get_latest_cache_file w) as [t c]. unfold result in Hscan.
  simpl in Hscan, Hw. subst c.
  rewrite result_try_except_bind, trace_try_except_bind, cache_writes_app, Hw.
  split; reflexivity.
Qed.

(** A request to the upstream API that fails at the network level (no
    connection, timeout) is answered 502, by the clause of line 330, and
    nothing is written to the cache. *)
Theorem network_error_answered_502 (w : World) (k msg : string) :
  api_key_missing k = false ->
  result (get_latest_cache_file w) = Ok None ->
  upstream_get w k = Raise (RequestError msg) ->
  result (handler w k)
    = Raise (HTTPException 502 (DNetworkError (RequestError msg)))
  /\ http_status (result (handler w k)) = 502
  /\ cache_writes (trace (handler w k)) = [].
Proof.
  intros Hk Hscan Hget.
  destruct (handler_on_miss w k Hk Hscan) as [Hr Hc].
  rewrite Hr, Hc. unfold fetch_fresh. rewrite Hget. simpl. auto.
Qed.

(** Whatever the key, the store and the upstream API do, the handler
    answers 200, 500 or 502: the status 400 it raises for a missing key
    never reaches the client. *)
Theorem lookup_status_is_200_500_or_502 (w : World) (k : string) :
  http_status (result (handler w k)) = 200
  \/ http_status (result (handler w k)) = 500
  \/ http_status (result (handler w k)) = 502.
Proof.
  unfold get_singapore_ship_data.
  match goal with |- context [try_except ?m handle_exception] =>
    destruct m as [t [a | e]] end.
  - left. reflexivity.
  - destruct (handle_exception_shape e) as (m & c & d & He & Hc).
    unfold try_except. rewrite He. simpl. destruct Hc as [-> | ->]; auto.
Qed.

(** When one object of the upstream list cannot be normalized, the whole
    lookup fails and nothing is cached: no partial list is returned. *)
Theorem one_bad_vessel_fails_the_lookup
    (w : World) (k : string) (r : Response) (ships : list pyval)
    (ship : pyval) (e : exn) :
  api_key_missing k = false ->
  result (get_latest_cache_file w) = Ok None ->
  upstream_get w k = Ok r ->
  is_success r = true ->
  json r = Ok (PList ships) ->
  In ship ships ->
  transform_ship float_of_str ship = Raise e ->
  (exists e', result (handler w k) = Raise e')
  /\ cache_writes (trace (handler w k)) = [].
Proof.
  intros Hk Hscan Hget Hs Hj Hin Hbad.
  destruct (handler_on_miss w k Hk Hscan) as [Hr Hc].
  rewrite Hr, Hc. unfold fetch_fresh. rewrite Hget. simpl.
  rewrite Hs. simpl. rewrite Hj. simpl.
  unfold transform. simpl.
  destruct (mapM_raises (transform_ship float_of_str) ships ship e Hin Hbad)
    as [e' He'].
  rewrite He'. simpl.
  destruct (handle_exception_shape e') as (m & c & d & He & _).
  rewrite He. simpl. split; [eexists; reflexivity | reflexivity].
Qed.

End LookupEffects.

Section NormalizationMore.

Variable float_of_str : string -> outcome spec_float.

(** A string field the object has is copied as it is, whatever its type;
    and when the object has [latitudeDegrees] (resp. [longitudeDegrees]),
    the field is [float] of it, whatever [latitude] (resp. [longitude]). *)
Theorem present_fields_are_kept (d : list (string * pyval)) (out : pyval) :
  transform_ship float_of_str (PDict d) = Ok out ->
  (forall key, In key string_particulars ->
     particular out key = dict_get d key (PStr ""))
  /\ field out "timeStamp" = dict_get d "timeStamp" (PStr "")
  /\ (dict_has d "latitudeDegrees" = true ->
      exists f, py_float float_of_str (dict_get d "latitudeDegrees" PNone) = Ok f
                /\ field out "latitudeDegrees" = PFloat f)
  /\ (dict_has d "longitudeDegrees" = true ->
      exists f, py_float float_of_str (dict_get d "longitudeDegrees" PNone) = Ok f
                /\ field out "longitudeDegrees" = PFloat f).
Proof.
  intros H. unfold transform_ship, get_str, get_float, get_float_or, py_get in H.
  cbn [obind] in H.
  repeat match type of H with
         | context [py_float float_of_str ?v] =>
             let E := fresh "E" in
             destruct (py_float float_of_str v) eqn:E;
             [cbn [obind] in H | discriminate H]
         end.
  inversion H; subst out; clear H.
  unfold string_particulars.
  split; [ | split; [ | split]].
  - intros key Hin. simpl in Hin.
    repeat (destruct Hin as [<- | Hin]; [reflexivity | ]).
    contradiction.
  - reflexivity.
  - intros Hhas.
    rewrite (dict_get_present d "latitudeDegrees" PNone
               (dict_get d "latitude" (PInt 0)) Hhas).
    eexists. split; [eassumption | reflexivity].
  - intros Hhas.
    rewrite (dict_get_present d "longitudeDegrees" PNone
               (dict_get d "longitude" (PInt 0)) Hhas).
    eexists. split; [eassumption | reflexivity].
Qed.

End NormalizationMore.

Section LookupComposition.

Variable json_loads : string -> outcome pyval.
Variable json_dumps : pyval -> string.
Variable float_of_str : string -> outcome spec_float.

Local Notation "'handler'" :=
  (get_singapore_ship_data json_loads json_dumps float_of_str).

Ltac handled e :=
  let m := fresh "m" in
  let c := fresh "c" in
  let d := fresh "d" in
  let He := fresh "He" in
  destruct (handle_exception_shape e) as (m & c & d & He & _);
  rewrite He.

Ltac bounded := simpl; repeat split; auto; try lia; try discriminate; try congruence.

(** One lookup calls the upstream API at most once, downloads at most one
    blob and writes at most one; it never does both a download and an
    upstream call, and it writes only after an upstream call. *)
Theorem lookup_effects_are_bounded (w : World) (k : string) :
  (List.length (filter is_network_call (trace (handler w k))) <= 1)%nat
  /\ (List.length (filter is_download (trace (handler w k))) <= 1)%nat
  /\ (List.length (cache_writes (trace (handler w k))) <= 1)%nat
  /\ (existsb is_download (trace (handler w k)) = true ->
      existsb is_network_call (trace (handler w k)) = false)
  /\ (cache_writes (trace (handler w k)) <> [] ->
      existsb is_network_call (trace (handler w k)) = true).
Proof.
  destruct (api_key_missing k) eqn:Hk.
  { rewrite (handler_without_key json_loads json_dumps float_of_str w k Hk).
    bounded. }
  rewrite (handler_with_key json_loads json_dumps float_of_str w k Hk).
  assert (Hfetch :
    forall t0, filter is_network_call t0 = [] -> filter is_download t0 = [] ->
      cache_writes t0 = [] -> existsb is_download t0 = false ->
      let t := trace (try_except
                 (bind (t0, Ok None)
                    (fun cached : option (Blob * datetime) =>
                       match cached with
                       | Some (cached_blob, cache_timestamp) =>
                           read_cached json_loads cached_blob cache_timestamp
                       | None => fetch_fresh json_dumps float_of_str w k
                       end))
                 handle_exception) in
      (List.length (filter is_network_call t) <= 1)%nat
      /\ (List.length (filter is_download t) <= 1)%nat
      /\ (List.length (cache_writes t) <= 1)%nat
      /\ (existsb is_download t = true -> existsb is_network_call t = false)
      /\ (cache_writes t <> [] -> existsb is_network_call t = true)).
  { intros t0 Hn Hd Hc He t. subst t.
    rewrite trace_try_except_bind.
    rewrite !filter_app, !cache_writes_app, !existsb_app, Hn, Hd, Hc, He.
    cbn [app orb].
    unfold fetch_fresh.
    destruct (upstream_get w k) as [r | e1]; simpl; [ | handled e1; bounded].
    destruct (is_success r); simpl;
      [ | bounded].
    destruct (json r) as [api_data | e2]; simpl; [ | handled e2; bounded].
    destruct (transform float_of_str api_data) as [data | e3]; simpl;
      [ | handled e3; bounded].
    rewrite save_to_cache_cases. simpl.
    destruct (save_bucket w) as [bucket | e0]; [ | bounded].
    destruct (bucket _ _); bounded. }
  destruct (snd (list_blobs w)) as [e | ] eqn:E.
  { rewrite (get_latest_cache_file_failed w e E). apply Hfetch; reflexivity. }
  rewrite (get_latest_cache_file_listed w E).
  destruct (scan_blobs (now_at_scan w) (fst (list_blobs w))) as [ | x r].
  { apply Hfetch; reflexivity. }
  destruct (max_by_timestamp x r) as [b ts].
  rewrite trace_try_except_bind, read_cached_cases.
  destruct (content <-- download_as_text b ;; json_loads content) as [d | e];
    [ | unfold try_except; handled e]; bounded.
Qed.


End LookupComposition.

(* ================================================================= *)
(** ** The position file: what is written reads back *)

Lemma rstrip_nonspace (c : ascii) (s : string) :
  PyStr.isspace c = false ->
  PyStr.rstrip (String c s) = String c (PyStr.rstrip s).
Proof.
  intros H. simpl. rewrite H. destruct (PyStr.rstrip s); reflexivity.
Qed.

Lemma rstrip_all_space (s : string) :
  PyStr.all_space s = true -> PyStr.rstrip s = "".
Proof.
  induction s as [ | c s IH]; [reflexivity | ].
  simpl. intros H. apply andb_true_iff in H. destruct H as [Hc Hs].
  rewrite (IH Hs), Hc. reflexivity.
Qed.

Lemma rstrip_app_space (s t : string) :
  PyStr.all_space t = true -> PyStr.rstrip (s ++ t) = PyStr.rstrip s.
Proof.
  intros Ht. induction s as [ | c s IH]; [now apply rstrip_all_space | ].
  simpl. rewrite IH. reflexivity.
Qed.

Lemma rstrip_app_kept (p s : string) :
  PyStr.rstrip s <> "" -> PyStr.rstrip (p ++ s) = p ++ PyStr.rstrip s.
Proof.
  intros Hs. induction p as [ | c p IH]; [reflexivity | ].
  simpl. rewrite IH.
  destruct (p ++ PyStr.rstrip s) eqn:E; [ | reflexivity].
  exfalso. destruct p; simpl in E; [now apply Hs | discriminate].
Qed.

Lemma rstrip_idempotent (s : string) :
  PyStr.rstrip (PyStr.rstrip s) = PyStr.rstrip s.
Proof.
  induction s as [ | c s IH]; [reflexivity | ].
  simpl. destruct (PyStr.rstrip s) as [ | a r] eqn:E.
  - destruct (PyStr.isspace c) eqn:Hc; [reflexivity | ].
    simpl. rewrite Hc. reflexivity.
  - change (PyStr.rstrip (String c (String a r)))
      with (match PyStr.rstrip (String a r) with
            | EmptyString =>
                if PyStr.isspace c then EmptyString else String c EmptyString
            | r' => String c r'
            end).
    rewrite IH. reflexivity.
Qed.

Lemma lstrip_rstrip (s : string) :
  PyStr.lstrip (PyStr.rstrip s) = PyStr.rstrip (PyStr.lstrip s).
Proof.
  induction s as [ | c s IH]; [reflexivity | ].
  destruct (PyStr.isspace c) eqn:Hc.
  - simpl. rewrite Hc. rewrite <- IH.
    destruct (PyStr.rstrip s) as [ | a r]; [reflexivity | ].
    simpl. rewrite Hc. reflexivity.
  - rewrite (rstrip_nonspace c s Hc). simpl. rewrite Hc.
    fold (PyStr.rstrip (String c s)). rewrite (rstrip_nonspace c s Hc).
    reflexivity.
Qed.

(** Stripping after a right strip is stripping. *)
Lemma strip_rstrip (s : string) :
  PyStr.strip (PyStr.rstrip s) = PyStr.strip s.
Proof.
  unfold PyStr.strip. rewrite lstrip_rstrip. apply rstrip_idempotent.
Qed.

Lemma not_linebreak_not_cr (c : ascii) :
  PyText.is_linebreak c = false -> Ascii.eqb c "013" = false.
Proof.
  intros H. destruct (Ascii.eqb_spec c "013") as [-> | ]; [ | reflexivity].
  discriminate H.
Qed.

(** A line, its boundary, and what follows. *)
Lemma splitlines_from_line (x rest : string) :
  one_line x = true ->
  forall cur,
    PyText.splitlines_from cur (x ++ PyText.NL ++ rest)
    = (cur ++ x) :: PyText.splitlines_from "" rest.
Proof.
  unfold one_line. induction x as [ | c x IH]; intros H cur.
  - simpl. rewrite append_empty_r. reflexivity.
  - simpl in H. apply andb_true_iff in H. destruct H as [Hc Hx].
    apply negb_true_iff in Hc.
    cbn [append PyText.splitlines_from].
    rewrite (not_linebreak_not_cr c Hc), Hc.
    rewrite (IH Hx). rewrite append_assoc. reflexivity.
Qed.

(** The last line, without a boundary after it. *)
Lemma splitlines_from_last (x : string) :
  one_line x = true ->
  forall cur, cur ++ x <> "" ->
    PyText.splitlines_from cur x = [cur ++ x].
Proof.
  unfold one_line. induction x as [ | c x IH]; intros H cur Hne.
  - rewrite append_empty_r in *. simpl. destruct cur; [congruence | reflexivity].
  - simpl in H. apply andb_true_iff in H. destruct H as [Hc Hx].
    apply negb_true_iff in Hc.
    cbn [PyText.splitlines_from].
    rewrite (not_linebreak_not_cr c Hc), Hc.
    rewrite (IH Hx).
    + rewrite append_assoc. reflexivity.
    + rewrite append_assoc. simpl. destruct cur; discriminate.
Qed.

(** Three lines that start and end with no whitespace, each ended by a
    line feed: stripping the text and splitting it gives the lines. *)
Lemma splitlines_three (a : ascii) (A B C : string) :
  PyStr.isspace a = false ->
  one_line (String a A) = true -> one_line B = true -> one_line C = true ->
  PyStr.rstrip C = C -> C <> "" ->
  PyText.splitlines
    (PyStr.strip (String a A ++ PyText.NL ++ B ++ PyText.NL ++ C ++ PyText.NL))
  = [String a A; B; C].
Proof.
  intros Ha HA HB HC HrC HneC.
  unfold PyStr.strip.
  assert (Hl : PyStr.lstrip
                 (String a A ++ PyText.NL ++ B ++ PyText.NL ++ C ++ PyText.NL)
               = String a A ++ PyText.NL ++ B ++ PyText.NL ++ C ++ PyText.NL)
    by (simpl; rewrite Ha; reflexivity).
  rewrite Hl.
  assert (Hr : PyStr.rstrip
                 (String a A ++ PyText.NL ++ B ++ PyText.NL ++ C ++ PyText.NL)
               = String a A ++ PyText.NL ++ B ++ PyText.NL ++ C).
  { replace (String a A ++ PyText.NL ++ B ++ PyText.NL ++ C ++ PyText.NL)
      with ((String a A ++ PyText.NL ++ B ++ PyText.NL) ++ (C ++ PyText.NL))
      by (rewrite !append_assoc; reflexivity).
    rewrite rstrip_app_kept;
      rewrite (rstrip_app_space C PyText.NL eq_refl), HrC; [ | exact HneC].
    rewrite !append_assoc. reflexivity. }
  rewrite Hr. unfold PyText.splitlines.
  rewrite (splitlines_from_line (String a A) _ HA).
  rewrite (splitlines_from_line B _ HB).
  rewrite (splitlines_from_last C HC) by exact HneC.
  reflexivity.
Qed.

Lemma one_line_app (s1 s2 : string) :
  one_line (s1 ++ s2) = one_line s1 && one_line s2.
Proof. apply string_forall_app. Qed.

Section PositionRoundTrip.

Variable float_of_str : string -> outcome spec_float.
Variable str_of_float : spec_float -> string.

(** The first line: the time comes back stripped. *)
Lemma read_time_line (t : string) (data : list (string * pyval)) :
  Files.read_line float_of_str data ("Time: " ++ t)
  = Files.Done (PyText.dict_set data "time" (PStr (PyStr.strip t))).
Proof.
  unfold Files.read_line.
  change (PyText.contains ":" ("Time: " ++ t)) with true. cbv iota.
  assert (Hs : PyStr.strip ("Time: " ++ t)
               = "Time:" ++ PyStr.rstrip (" " ++ t)).
  { unfold PyStr.strip.
    change (PyStr.lstrip ("Time: " ++ t)) with ("Time: " ++ t).
    change ("Time: " ++ t)
      with (String "T" (String "i" (String "m" (String "e" (String ":" (" " ++ t)))))).
    rewrite !rstrip_nonspace by reflexivity. reflexivity. }
  rewrite Hs.
  change (PyText.split_once ":" ("Time:" ++ PyStr.rstrip (" " ++ t)))
    with (Some ("Time"%string, PyStr.rstrip (" " ++ t))).
  cbv iota beta.
  change (PyText.lower (PyStr.strip "Time")) with "time"%string.
  change (String.eqb "time" "latitude" || String.eqb "time" "longitude")
    with false.
  cbv iota. rewrite strip_rstrip.
  change (PyStr.strip (" " ++ t)) with (PyStr.strip t). reflexivity.
Qed.

(** A line of a number printed without surrounding whitespace. *)
Lemma read_latitude_line (s : string) (f : spec_float)
    (data : list (string * pyval)) :
  well_printed s -> float_of_str s = Ok f ->
  Files.read_line float_of_str data ("Latitude: " ++ s)
  = Files.Done (PyText.dict_set data "latitude" (PFloat f)).
Proof.
  intros (_ & Hl & Hr & Hne) Hf.
  unfold Files.read_line.
  change (PyText.contains ":" ("Latitude: " ++ s)) with true. cbv iota.
  assert (Hs : PyStr.strip ("Latitude: " ++ s) = "Latitude: " ++ s).
  { unfold PyStr.strip.
    change (PyStr.lstrip ("Latitude: " ++ s)) with ("Latitude: " ++ s).
    rewrite rstrip_app_kept; rewrite Hr; [reflexivity | exact Hne]. }
  rewrite Hs.
  change (PyText.split_once ":" ("Latitude: " ++ s))
    with (Some ("Latitude"%string, " " ++ s)).
  cbv iota beta.
  change (PyText.lower (PyStr.strip "Latitude")) with "latitude"%string.
  change (String.eqb "latitude" "latitude" || String.eqb "latitude" "longitude")
    with true.
  cbv iota.
  assert (Hv : PyStr.strip (" " ++ s) = s).
  { unfold PyStr.strip. change (PyStr.lstrip (" " ++ s)) with (PyStr.lstrip s).
    rewrite Hl. exact Hr. }
  rewrite Hv, Hf. reflexivity.
Qed.

Lemma read_longitude_line (s : string) (f : spec_float)
    (data : list (string * pyval)) :
  well_printed s -> float_of_str s = Ok f ->
  Files.read_line float_of_str data ("Longitude: " ++ s)
  = Files.Done (PyText.dict_set data "longitude" (PFloat f)).
Proof.
  intros (_ & Hl & Hr & Hne) Hf.
  unfold Files.read_line.
  change (PyText.contains ":" ("Longitude: " ++ s)) with true. cbv iota.
  assert (Hs : PyStr.strip ("Longitude: " ++ s) = "Longitude: " ++ s).
  { unfold PyStr.strip.
    change (PyStr.lstrip ("Longitude: " ++ s)) with ("Longitude: " ++ s).
    rewrite rstrip_app_kept; rewrite Hr; [reflexivity | exact Hne]. }
  rewrite Hs.
  change (PyText.split_once ":" ("Longitude: " ++ s))
    with (Some ("Longitude"%string, " " ++ s)).
  cbv iota beta.
  change (PyText.lower (PyStr.strip "Longitude")) with "longitude"%string.
  change (String.eqb "longitude" "latitude" || String.eqb "longitude" "longitude")
    with true.
  cbv iota.
  assert (Hv : PyStr.strip (" " ++ s) = s).
  { unfold PyStr.strip. change (PyStr.lstrip (" " ++ s)) with (PyStr.lstrip s).
    rewrite Hl. exact Hr. }
  rewrite Hv, Hf. reflexivity.
Qed.

(** The text [POST /positions] writes parses to the position posted. *)
Lemma parse_position_content (data : Files.InputData) :
  one_line (Files.time data) = true ->
  well_printed (str_of_float (Files.lat data)) ->
  well_printed (str_of_float (Files.lon data)) ->
  float_of_str (str_of_float (Files.lat data)) = Ok (Files.lat data) ->
  float_of_str (str_of_float (Files.lon data)) = Ok (Files.lon data) ->
  Files.parse_positions float_of_str (Files.position_content str_of_float data)
  = Files.Done (PDict [("time", PStr (PyStr.strip (Files.time data)));
                       ("latitude", PFloat (Files.lat data));
                       ("longitude", PFloat (Files.lon data))]).
Proof.
  intros Ht Hlat Hlon Hflat Hflon.
  unfold Files.parse_positions, Files.position_content.
  pose proof Hlat as (Hlat1 & _). pose proof Hlon as (Hlon1 & Hlon2 & Hlon3 & Hlon4).
  replace ("Time: " ++ Files.time data ++ PyText.NL
           ++ "Latitude: " ++ str_of_float (Files.lat data) ++ PyText.NL
           ++ "Longitude: " ++ str_of_float (Files.lon data) ++ PyText.NL)
    with (String "T" ("ime: " ++ Files.time data) ++ PyText.NL
          ++ ("Latitude: " ++ str_of_float (Files.lat data)) ++ PyText.NL
          ++ ("Longitude: " ++ str_of_float (Files.lon data)) ++ PyText.NL)
    by (cbn [append]; rewrite ?append_assoc; reflexivity).
  rewrite splitlines_three.
  - cbn [Files.read_lines Files.rbind].
    change (String "T" ("ime: " ++ Files.time data))
      with ("Time: " ++ Files.time data).
    rewrite read_time_line. cbn [Files.rbind].
    rewrite (read_latitude_line _ _ _ Hlat Hflat). cbn [Files.rbind].
    rewrite (read_longitude_line _ _ _ Hlon Hflon). cbn [Files.rbind].
    reflexivity.
  - reflexivity.
  - change (String "T" ("ime: " ++ Files.time data))
      with ("Time: " ++ Files.time data).
    rewrite one_line_app, Ht. reflexivity.
  - rewrite one_line_app, Hlat1. reflexivity.
  - rewrite one_line_app, Hlon1. reflexivity.
  - rewrite rstrip_app_kept; rewrite Hlon3; [reflexivity | exact Hlon4].
  - discriminate.
Qed.

(** A position posted to a working store reads back from it: the time
    stripped, latitude and longitude as posted, provided the time has no
    line boundary and the numbers print on one line without surrounding
    whitespace and parse back. *)
Theorem posted_position_reads_back (b : Files.Bucket) (data : Files.InputData) :
  Files.upload_error b = None ->
  Files.exists_error b = None ->
  Files.download_error b = None ->
  one_line (Files.time data) = true ->
  well_printed (str_of_float (Files.lat data)) ->
  well_printed (str_of_float (Files.lon data)) ->
  float_of_str (str_of_float (Files.lat data)) = Ok (Files.lat data) ->
  float_of_str (str_of_float (Files.lon data)) = Ok (Files.lon data) ->
  Files.status (Files.answer (snd (Files.submit_data str_of_float b data))) = 200
  /\ Files.answer
       (Files.get_data float_of_str
          (fst (Files.submit_data str_of_float b data)))
     = Files.Done (PDict [("time", PStr (PyStr.strip (Files.time data)));
                          ("latitude", PFloat (Files.lat data));
                          ("longitude", PFloat (Files.lon data))]).
Proof.
  intros Hup Hex Hdl Ht Hlat Hlon Hflat Hflon.
  unfold Files.submit_data, Files.blob_upload. rewrite Hup.
  cbn [fst snd]. split; [reflexivity | ].
  unfold Files.get_data, Files.blob_exists, Files.blob_download.
  cbn [Files.blobs Files.exists_error Files.download_error Files.find_blob].
  rewrite Hex, Hdl. rewrite String.eqb_refl.
  cbn [Files.of_outcome Files.rbind negb].
  rewrite (parse_position_content data Ht Hlat Hlon Hflat Hflon).
  reflexivity.
Qed.

End PositionRoundTrip.

(* ================================================================= *)
(** ** The answers of the position and fuel-consumption endpoints *)

Lemma lower_char_idempotent (c : ascii) :
  PyText.lower_char (PyText.lower_char c) = PyText.lower_char c.
Proof.
  destruct c as [b0 b1 b2 b3 b4 b5 b6 b7].
  destruct b0, b1, b2, b3, b4, b5, b6, b7; reflexivity.
Qed.

Lemma lower_idempotent (s : string) :
  PyText.lower (PyText.lower s) = PyText.lower s.
Proof.
  induction s as [ | c s IH]; [reflexivity | ].
  simpl. rewrite lower_char_idempotent, IH. reflexivity.
Qed.

Lemma dict_set_Forall (P : string * pyval -> Prop)
    (d : list (string * pyval)) (key : string) (v : pyval) :
  Forall P d -> P (key, v) -> Forall P (PyText.dict_set d key v).
Proof.
  intros Hd Hv. induction Hd as [ | [k x] d Hx Hd IH]; simpl.
  - constructor; [exact Hv | constructor].
  - destruct (String.eqb_spec k key) as [-> | Hne].
    + constructor; assumption.
    + constructor; assumption.
Qed.

Section FileAnswers.

Variable json_loads : string -> outcome pyval.
Variable float_of_str : string -> outcome spec_float.

Lemma read_line_items (data data' : list (string * pyval)) (line : string) :
  Forall position_item data ->
  Files.read_line float_of_str data line = Files.Done data' ->
  Forall position_item data'.
Proof.
  intros Hd. unfold Files.read_line.
  destruct (PyText.contains ":" line); [ | intros H; inversion H; subst; exact Hd].
  destruct (PyText.split_once ":" (PyStr.strip line)) as [[key value] | ];
    [ | discriminate].
  destruct (String.eqb (PyText.lower (PyStr.strip key)) "latitude"
            || String.eqb (PyText.lower (PyStr.strip key)) "longitude") eqn:E.
  - destruct (float_of_str (PyStr.strip value)) as [f | e]; [ | discriminate].
    simpl. intros H. inversion H; subst.
    apply dict_set_Forall; [exact Hd | ].
    unfold position_item. cbn [fst snd]. rewrite E, lower_idempotent.
    split; [reflexivity | now exists f].
  - intros H. inversion H; subst.
    apply dict_set_Forall; [exact Hd | ].
    unfold position_item. cbn [fst snd]. rewrite E, lower_idempotent.
    split; [reflexivity | now eexists].
Qed.

Lemma read_lines_items (lines : list string) :
  forall data data', Forall position_item data ->
    Files.read_lines float_of_str data lines = Files.Done data' ->
    Forall position_item data'.
Proof.
  induction lines as [ | line lines IH]; intros data data' Hd H; simpl in H.
  - inversion H; subst. exact Hd.
  - destruct (Files.read_line float_of_str data line) as [d1 | e] eqn:E;
      [ | discriminate].
    simpl in H. apply (IH d1 data'); [ | exact H].
    exact (read_line_items data d1 line Hd E).
Qed.

(** What [GET /positions] answers is a dict with lower-case keys whose
    [latitude] and [longitude] are floats and whose other values are
    strings, whatever the file holds. *)
Theorem positions_answer_is_typed (b : Files.Bucket) (out : pyval) :
  Files.answer (Files.get_data float_of_str b) = Files.Done out ->
  exists d, out = PDict d /\ Forall position_item d.
Proof.
  unfold Files.get_data, Files.guarded, Files.answer.
  destruct (Files.of_outcome (Files.blob_exists b Files.POSITION_FILE_NAME))
    as [found | e]; [ | discriminate].
  cbn [Files.rbind]. destruct found; cbn [negb]; [ | discriminate].
  destruct (Files.of_outcome (Files.blob_download b Files.POSITION_FILE_NAME))
    as [content | e]; [ | discriminate].
  cbn [Files.rbind]. unfold Files.parse_positions.
  destruct (Files.read_lines float_of_str []
              (PyText.splitlines (PyStr.strip content))) as [d | e] eqn:E;
    [ | discriminate].
  cbn [Files.rbind snd]. intros H. inversion H; subst.
  exists d. split; [reflexivity | ].
  exact (read_lines_items _ [] d (Forall_nil _) E).
Qed.

(** A missing file is answered 500 by the three handlers that read one:
    the 404 they raise is caught by their own [except Exception]. *)
Theorem missing_file_is_answered_500 (b : Files.Bucket) (request : Files.FuelRequest) :
  Files.exists_error b = None ->
  (Files.find_blob (Files.blobs b) Files.POSITION_FILE_NAME = None ->
     Files.answer (Files.get_data float_of_str b)
     = Files.Fail (Files.HTTP 500 (Files.StrOf
         (Files.HTTP 404 (Files.Text "Data file not found.")))))
  /\ (Files.find_blob (Files.blobs b) Files.FUEL_CONSUMPTION_FILE_NAME = None ->
        Files.answer (Files.get_fuel_consumption_data json_loads b)
        = Files.Fail (Files.HTTP 500 (Files.StrOf
            (Files.HTTP 404 (Files.Text "Data file not found."))))
        /\ Files.answer (Files.get_fuel_consumption_value json_loads b request)
           = Files.Fail (Files.HTTP 500 (Files.StrOf
               (Files.HTTP 404 (Files.Text "Data file not found."))))).
Proof.
  intros Hex. split.
  - intros Hf. unfold Files.get_data, Files.blob_exists. rewrite Hex, Hf.
    reflexivity.
  - intros Hf. split.
    + unfold Files.get_fuel_consumption_data, Files.blob_exists.
      rewrite Hex, Hf. reflexivity.
    + unfold Files.get_fuel_consumption_value, Files.blob_exists.
      rewrite Hex, Hf. reflexivity.
Qed.

(** The fuel table read by [POST /fuel-consumption], when it decodes. *)
Lemma fuel_value_with_table (b : Files.Bucket) (request : Files.FuelRequest)
    (content : string) (data : pyval) :
  Files.exists_error b = None ->
  Files.download_error b = None ->
  Files.find_blob (Files.blobs b) Files.FUEL_CONSUMPTION_FILE_NAME = Some content ->
  json_loads content = Ok data ->
  Files.get_fuel_consumption_value json_loads b request
  = Files.guarded "Failed to compute fuel consumption"
      (Files.fuel_value_of data request).
Proof.
  intros Hex Hdl Hf Hj.
  unfold Files.get_fuel_consumption_value, Files.blob_exists, Files.blob_download.
  rewrite Hex, Hdl, Hf. cbn [Files.of_outcome Files.rbind negb].
  rewrite Hj. reflexivity.
Qed.

(** A category or a vessel type the table lacks is answered 500: the 404
    raised for it is caught by the handler's own [except Exception]. *)
Theorem unknown_vessel_is_answered_500
    (b : Files.Bucket) (request : Files.FuelRequest) (content : string)
    (table : list (string * pyval)) (rounded : Z) :
  Files.exists_error b = None ->
  Files.download_error b = None ->
  Files.find_blob (Files.blobs b) Files.FUEL_CONSUMPTION_FILE_NAME = Some content ->
  json_loads content = Ok (PDict table) ->
  PyText.py_round (Files.speed request) = Ok rounded ->
  (dict_has table (Files.category request) = false
   \/ exists vessels,
        dict_get table (Files.category request) (PDict []) = PDict vessels
        /\ dict_has vessels (Files.vessel_type request) = false) ->
  Files.answer (Files.get_fuel_consumption_value json_loads b request)
  = Files.Fail (Files.HTTP 500 (Files.StrOf
      (Files.HTTP 404 (Files.Text "Vessel type not found.")))).
Proof.
  intros Hex Hdl Hf Hj Hr Hunknown.
  rewrite (fuel_value_with_table b request content (PDict table) Hex Hdl Hf Hj).
  unfold Files.fuel_value_of, Files.get_or_none. rewrite Hr.
  cbn [Files.of_outcome Files.rbind py_get].
  destruct Hunknown as [Hc | (vessels & Hc & Hv)].
  - rewrite (dict_get_absent table _ _ Hc). reflexivity.
  - rewrite Hc. cbn [Files.of_outcome Files.rbind py_get].
    rewrite (dict_get_absent vessels _ _ Hv). reflexivity.
Qed.

(** When [POST /fuel-consumption] answers, the speed it used is the
    requested speed rounded, brought into 8..22, and the value it gives is
    the entry of that speed in the table, which is not [None]. *)
Theorem fuel_answer_uses_clamped_speed
    (b : Files.Bucket) (request : Files.FuelRequest) (out : pyval) :
  Files.answer (Files.get_fuel_consumption_value json_loads b request)
  = Files.Done out ->
  exists rounded content data by_category vessel_info fuel_map fuel_value,
    PyText.py_round (Files.speed request) = Ok rounded
    /\ 8 <= Files.clamp_speed rounded <= 22
    /\ (8 <= rounded <= 22 -> Files.clamp_speed rounded = rounded)
    /\ (rounded < 8 -> Files.clamp_speed rounded = 8)
    /\ (22 < rounded -> Files.clamp_speed rounded = 22)
    /\ Files.blob_download b Files.FUEL_CONSUMPTION_FILE_NAME = Ok content
    /\ json_loads content = Ok data
    /\ py_get data (Files.category request) (PDict []) = Ok by_category
    /\ py_get by_category (Files.vessel_type request) PNone = Ok vessel_info
    /\ py_get vessel_info "fuel_consumption_tpd" (PDict []) = Ok fuel_map
    /\ py_get fuel_map (PyText.str_of_int (Files.clamp_speed rounded)) PNone
       = Ok fuel_value
    /\ fuel_value <> PNone
    /\ out = PDict [("category", PStr (Files.category request));
                    ("vessel_type", PStr (Files.vessel_type request));
                    ("requested_speed", PFloat (Files.speed request));
                    ("used_speed", PInt (Files.clamp_speed rounded));
                    ("fuel_consumption_tpd", fuel_value)].
Proof.
  unfold Files.get_fuel_consumption_value, Files.guarded, Files.answer.
  destruct (Files.blob_exists b Files.FUEL_CONSUMPTION_FILE_NAME)
    as [found | e]; [ | discriminate].
  cbn [Files.of_outcome Files.rbind]. destruct found; cbn [negb]; [ | discriminate].
  destruct (Files.blob_download b Files.FUEL_CONSUMPTION_FILE_NAME)
    as [content | e]; [ | discriminate].
  cbn [Files.of_outcome Files.rbind].
  destruct (json_loads content) as [data | e] eqn:Hj; [ | discriminate].
  cbn [Files.of_outcome Files.rbind]. unfold Files.fuel_value_of, Files.get_or_none.
  destruct (PyText.py_round (Files.speed request)) as [rounded | e] eqn:Hr;
    [ | discriminate].
  cbn [Files.of_outcome Files.rbind].
  destruct (py_get data (Files.category request) (PDict []))
    as [by_category | e] eqn:H1; [ | discriminate].
  cbn [Files.of_outcome Files.rbind].
  destruct (py_get by_category (Files.vessel_type request) PNone)
    as [vessel_info | e] eqn:H2; [ | discriminate].
  cbn [Files.of_outcome Files.rbind].
  destruct (negb (PyText.truthy vessel_info)); [discriminate | ].
  destruct (py_get vessel_info "fuel_consumption_tpd" (PDict []))
    as [fuel_map | e] eqn:H3; [ | discriminate].
  cbn [Files.of_outcome Files.rbind].
  destruct (py_get fuel_map (PyText.str_of_int (Files.clamp_speed rounded)) PNone)
    as [fuel_value | e] eqn:H4; [ | discriminate].
  cbn [Files.of_outcome Files.rbind].
  intros H.
  exists rounded, content, data, by_category, vessel_info, fuel_map, fuel_value.
  assert (Hv : fuel_value <> PNone /\
               out = PDict [("category", PStr (Files.category request));
                            ("vessel_type", PStr (Files.vessel_type request));
                            ("requested_speed", PFloat (Files.speed request));
                            ("used_speed", PInt (Files.clamp_speed rounded));
                            ("fuel_consumption_tpd", fuel_value)]).
  { destruct fuel_value; cbn [snd] in H; try discriminate;
      inversion H; subst; split; try reflexivity; discriminate. }
  destruct Hv as [Hv1 Hv2].
  unfold Files.clamp_speed.
  repeat split; try assumption; try reflexivity; lia.
Qed.

End FileAnswers.

(** A NaN or an infinite speed is answered 500, whatever the table. *)
Theorem non_finite_speed_is_answered_500
    (json_loads : string -> outcome pyval)
    (b : Files.Bucket) (request : Files.FuelRequest) (content : string)
    (data : pyval) :
  Files.exists_error b = None ->
  Files.download_error b = None ->
  Files.find_blob (Files.blobs b) Files.FUEL_CONSUMPTION_FILE_NAME = Some content ->
  json_loads content = Ok data ->
  (Files.speed request = S754_nan
   \/ exists s, Files.speed request = S754_infinity s) ->
  Files.status
    (Files.answer (Files.get_fuel_consumption_value json_loads b request))
  = 500.
Proof.
  intros Hex Hdl Hf Hj Hspeed.
  rewrite (fuel_value_with_table json_loads b request content data Hex Hdl Hf Hj).
  unfold Files.fuel_value_of.
  destruct Hspeed as [-> | [s ->]]; reflexivity.
Qed.

(* ================================================================= *)
(** ** These theorems on sample runs *)

Import SampleMore.

Lemma network_error_answered_502_witness :
  api_key_missing "key" = false
  /\ upstream_get world_network_down "key" = Raise (RequestError "timed out")
  /\ http_status
       (result (get_singapore_ship_data Sample.loads Sample.dumps
                  Sample.float_of_str world_network_down "key")) = 502.
Proof.
  split; [reflexivity | split; [reflexivity | ]].
  destruct (network_error_answered_502 Sample.loads Sample.dumps
              Sample.float_of_str world_network_down "key" "timed out"
              eq_refl eq_refl eq_refl) as (_ & H & _).
  exact H.
Defined.

Lemma one_bad_vessel_fails_the_lookup_witness :
  transform_ship Sample.float_of_str (PInt 3) = Raise AttributeError
  /\ (exists e', result (get_singapore_ship_data Sample.loads Sample.dumps
                           Sample.float_of_str world_bad_vessel "key")
                 = Raise e')
  /\ cache_writes (trace (get_singapore_ship_data Sample.loads Sample.dumps
                            Sample.float_of_str world_bad_vessel "key")) = [].
Proof.
  split; [reflexivity | ].
  apply (one_bad_vessel_fails_the_lookup Sample.loads Sample.dumps
           Sample.float_of_str world_bad_vessel "key"
           (mk_response 200 "[ ... ]" (Ok (PList [Sample.ship; PInt 3])))
           [Sample.ship; PInt 3] (PInt 3) AttributeError);
    try reflexivity.
  simpl. auto.
Defined.

Lemma present_fields_are_kept_witness :
  exists out,
    transform_ship Sample.float_of_str (PDict odd_ship) = Ok out
    /\ particular out "vesselName" = PInt 7
    /\ field out "latitude" = PFloat Sample.one_and_a_half
    /\ field out "latitudeDegrees" = PFloat float_zero.
Proof.
  eexists. split; [reflexivity | ].
  destruct (present_fields_are_kept Sample.float_of_str odd_ship _ eq_refl)
    as (Hstr & _ & Hlat & _).
  split; [rewrite Hstr; [reflexivity | simpl; auto] | ].
  split; [reflexivity | ].
  destruct (Hlat eq_refl) as (f & Hf & Hout).
  rewrite Hout. injection Hf as <-. reflexivity.
Defined.


Lemma posted_position_reads_back_witness :
  well_printed (SampleFiles.str_of_float Sample.one_and_a_half)
  /\ Files.answer
       (Files.get_data SampleFiles.float_of_str
          (fst (Files.submit_data SampleFiles.str_of_float
                  SampleFiles.empty_bucket SampleFiles.position)))
     = Files.Done (PDict [("time", PStr "2024-01-01T10:05:00Z");
                          ("latitude", PFloat Sample.one_and_a_half);
                          ("longitude", PFloat float_zero)]).
Proof.
  assert (H15 : well_printed (SampleFiles.str_of_float Sample.one_and_a_half))
    by (repeat split; discriminate).
  assert (H00 : well_printed (SampleFiles.str_of_float float_zero))
    by (repeat split; discriminate).
  split; [exact H15 | ].
  destruct (posted_position_reads_back SampleFiles.float_of_str
              SampleFiles.str_of_float SampleFiles.empty_bucket
              SampleFiles.position eq_refl eq_refl eq_refl eq_refl H15 H00
              eq_refl eq_refl) as [_ H].
  exact H.
Defined.

Lemma positions_answer_is_typed_witness :
  exists d,
    Files.answer
      (Files.get_data SampleFiles.float_of_str
         (fst (Files.submit_data SampleFiles.str_of_float
                 SampleFiles.empty_bucket SampleFiles.position)))
    = Files.Done (PDict d)
    /\ Forall position_item d.
Proof.
  destruct (positions_answer_is_typed SampleFiles.float_of_str
              (fst (Files.submit_data SampleFiles.str_of_float
                      SampleFiles.empty_bucket SampleFiles.position))
              (PDict [("time", PStr "2024-01-01T10:05:00Z");
                      ("latitude", PFloat Sample.one_and_a_half);
                      ("longitude", PFloat float_zero)])
              eq_refl) as (d & Hd & Hitems).
  exists d. split; [rewrite <- Hd; reflexivity | exact Hitems].
Defined.

Lemma missing_file_is_answered_500_witness :
  Files.exists_error SampleFiles.empty_bucket = None
  /\ Files.status
       (Files.answer (Files.get_data SampleFiles.float_of_str
                        SampleFiles.empty_bucket)) = 500.
Proof.
  split; [reflexivity | ].
  destruct (missing_file_is_answered_500 SampleFiles.loads
              SampleFiles.float_of_str SampleFiles.empty_bucket
              (Files.mk_fuel_request "cargo" "bulk carrier" SampleFiles.thirty)
              eq_refl) as [H _].
  rewrite (H eq_refl). reflexivity.
Defined.

Lemma unknown_vessel_is_answered_500_witness :
  dict_has [("cargo", PNone)] "tanker" = false
  /\ Files.status
       (Files.answer
          (Files.get_fuel_consumption_value SampleFiles.loads
             SampleFiles.fuel_bucket
             (Files.mk_fuel_request "tanker" "bulk carrier" SampleFiles.thirty)))
     = 500.
Proof.
  split; [reflexivity | ].
  rewrite (unknown_vessel_is_answered_500 SampleFiles.loads
             SampleFiles.fuel_bucket
             (Files.mk_fuel_request "tanker" "bulk carrier" SampleFiles.thirty)
             "{ ... }"
             [("cargo",
               PDict [("bulk carrier",
                       PDict [("fuel_consumption_tpd",
                               PDict [("8", PFloat Sample.one_and_a_half);
                                      ("10", PInt 21);
                                      ("22", PInt 60)])])])]
             30 eq_refl eq_refl eq_refl eq_refl eq_refl
             (or_introl eq_refl)).
  reflexivity.
Defined.

Lemma fuel_answer_uses_clamped_speed_witness :
  Files.answer
    (Files.get_fuel_consumption_value SampleFiles.loads SampleFiles.fuel_bucket
       (Files.mk_fuel_request "cargo" "bulk carrier" SampleFiles.thirty))
  = Files.Done
      (PDict [("category", PStr "cargo");
              ("vessel_type", PStr "bulk carrier");
              ("requested_speed", PFloat SampleFiles.thirty);
              ("used_speed", PInt 22);
              ("fuel_consumption_tpd", PInt 60)])
  /\ exists rounded,
       PyText.py_round SampleFiles.thirty = Ok rounded
       /\ 8 <= Files.clamp_speed rounded <= 22.
Proof.
  split; [reflexivity | ].
  destruct (fuel_answer_uses_clamped_speed SampleFiles.loads
              SampleFiles.fuel_bucket
              (Files.mk_fuel_request "cargo" "bulk carrier" SampleFiles.thirty)
              _ eq_refl)
    as (rounded & _ & _ & _ & _ & _ & _ & Hr & Hb & _).
  exists rounded. split; assumption.
Defined.

Lemma non_finite_speed_is_answered_500_witness :
  Files.status
    (Files.answer
       (Files.get_fuel_consumption_value SampleFiles.loads SampleFiles.fuel_bucket
          (Files.mk_fuel_request "cargo" "bulk carrier" S754_nan)))
  = 500.
Proof.
  apply (non_finite_speed_is_answered_500 SampleFiles.loads
           SampleFiles.fuel_bucket
           (Files.mk_fuel_request "cargo" "bulk carrier" S754_nan)
           "{ ... }" SampleFiles.fuel_table); try reflexivity.
  left. reflexivity.
Defined.

(** A speed of 9.5 rounds to the even 10, the entry the answer gives. *)
Example fuel_speed_rounds_half_to_even :
  Files.answer
    (Files.get_fuel_consumption_value SampleFiles.loads SampleFiles.fuel_bucket
       (Files.mk_fuel_request "cargo" "bulk carrier" SampleFiles.nine_and_a_half))
  = Files.Done
      (PDict [("category", PStr "cargo");
              ("vessel_type", PStr "bulk carrier");
              ("requested_speed", PFloat SampleFiles.nine_and_a_half);
              ("used_speed", PInt 10);
              ("fuel_consumption_tpd", PInt 21)]).
Proof. reflexivity. Qed.

(* ================================================================= *)
(** ** The key that is forwarded, the names that are written, the bodies
       that are not lists *)

Section ForwardedKey.

Variable json_loads : string -> outcome pyval.
Variable json_dumps : pyval -> string.
Variable float_of_str : string -> outcome spec_float.

Local Notation "'handler'" :=
  (get_singapore_ship_data json_loads json_dumps float_of_str).

Ltac handled_by e :=
  let m := fresh "m" in
  let c := fresh "c" in
  let d := fresh "d" in
  let He := fresh "He" in
  destruct (handle_exception_shape e) as (m & c & d & He & _);
  rewrite He.

Lemma forwarded_key_trace (w : World) (k : string) :
  Forall (forwards k) (trace (handler w k)).
Proof.
  destruct (api_key_missing k) eqn:Hk.
  { rewrite (handler_without_key json_loads json_dumps float_of_str w k Hk).
    repeat constructor. }
  rewrite (handler_with_key json_loads json_dumps float_of_str w k Hk).
  assert (Hfetch :
    forall t0, Forall (forwards k) t0 ->
      Forall (forwards k)
        (trace (try_except
                 (bind (t0, Ok None)
                    (fun cached : option (Blob * datetime) =>
                       match cached with
                       | Some (cached_blob, cache_timestamp) =>
                           read_cached json_loads cached_blob cache_timestamp
                       | None => fetch_fresh json_dumps float_of_str w k
                       end))
                 handle_exception))).
  { intros t0 H0. rewrite trace_try_except_bind.
    apply Forall_app. split; [exact H0 | ].
    unfold fetch_fresh.
    destruct (upstream_get w k) as [r | e1]; simpl;
      [ | handled_by e1; simpl; repeat constructor].
    destruct (is_success r); simpl; [ | repeat constructor].
    destruct (json r) as [api_data | e2]; simpl;
      [ | handled_by e2; simpl; repeat constructor].
    destruct (transform float_of_str api_data) as [data | e3]; simpl;
      [ | handled_by e3; simpl; repeat constructor].
    rewrite save_to_cache_cases. simpl.
    destruct (save_bucket w) as [bucket | e0]; [ | simpl; repeat constructor].
    destruct (bucket _ _); simpl; repeat constructor. }
  destruct (snd (list_blobs w)) as [e | ] eqn:E.
  { rewrite (get_latest_cache_file_failed w e E). apply Hfetch.
    repeat constructor. }
  rewrite (get_latest_cache_file_listed w E).
  destruct (scan_blobs (now_at_scan w) (fst (list_blobs w))) as [ | x r].
  { apply Hfetch. repeat constructor. }
  destruct (max_by_timestamp x r) as [b ts].
  rewrite trace_try_except_bind, read_cached_cases.
  apply Forall_app. split; [repeat constructor | ].
  destruct (content <-- download_as_text b ;; json_loads content) as [d | e];
    [ | unfold try_except; handled_by e]; simpl; repeat constructor.
Qed.

(** The key sent to the upstream API is the header value as received, not
    stripped, and a key is only ever sent when it has a character that is
    no whitespace. *)
Theorem forwarded_key_is_the_header (w : World) (k k' : string) :
  In (EvHttpGet k') (trace (handler w k)) ->
  k' = k /\ PyStr.all_space k = false.
Proof.
  intros Hin.
  pose proof (forwarded_key_trace w k) as H.
  rewrite Forall_forall in H. specialize (H _ Hin). simpl in H.
  split; [exact H | ].
  rewrite <- api_key_missing_spec.
  destruct (api_key_missing k) eqn:Hk; [ | reflexivity].
  rewrite (handler_without_key json_loads json_dumps float_of_str w k Hk) in Hin.
  simpl in Hin. destruct Hin as [Hin | []]. discriminate Hin.
Qed.

End ForwardedKey.

(** Two cache writes go to the same name exactly when their clock readings
    fall in the same second: the later one then replaces the earlier. *)
Theorem cache_names_coincide_within_a_second (t1 t2 : datetime) :
  check_fields t1 = true -> 1000 <= year t1 ->
  check_fields t2 = true -> 1000 <= year t2 ->
  (cache_filename_at t1 = cache_filename_at t2
   <-> whole_second t1 = whole_second t2).
Proof.
  intros H1 Hy1 H2 Hy2. split.
  - intros Hname.
    destruct (cache_filename_reads_back t1 H1 Hy1) as (_ & _ & Hr1).
    destruct (cache_filename_reads_back t2 H2 Hy2) as (_ & _ & Hr2).
    rewrite Hname in Hr1. congruence.
  - intros Hsec. destruct t1, t2. unfold whole_second in Hsec. simpl in Hsec.
    injection Hsec as -> -> -> -> -> ->.
    reflexivity.
Qed.

(** A decoded body that is no list: an object is iterated by its keys and
    a string by its characters, so that only the empty ones pass, as the
    empty list; [null], a boolean or a number cannot be iterated. *)
Theorem bodies_that_are_no_list
    (float_of_str : string -> outcome spec_float)
    (d : list (string * pyval)) (s : string) (b : bool) (n : Z) (f : spec_float) :
  transform float_of_str (PDict []) = Ok []
  /\ transform float_of_str (PStr "") = Ok []
  /\ (d <> [] -> transform float_of_str (PDict d) = Raise AttributeError)
  /\ (s <> "" -> transform float_of_str (PStr s) = Raise AttributeError)
  /\ transform float_of_str PNone = Raise TypeError
  /\ transform float_of_str (PBool b) = Raise TypeError
  /\ transform float_of_str (PInt n) = Raise TypeError
  /\ transform float_of_str (PFloat f) = Raise TypeError.
Proof.
  repeat split.
  - intros Hd. destruct d as [ | [k v] d]; [congruence | reflexivity].
  - intros Hs. destruct s as [ | c s]; [congruence | reflexivity].
Qed.

Lemma cache_names_coincide_within_a_second_witness :
  cache_filename_at Sample.at_10_06
  = cache_filename_at (mk_datetime 2024 1 1 10 6 0 999999)
  /\ cache_filename_at Sample.at_10_06 <> cache_filename_at Sample.at_10_06_01.
Proof.
  split.
  - apply (cache_names_coincide_within_a_second Sample.at_10_06
             (mk_datetime 2024 1 1 10 6 0 999999)); try reflexivity; simpl; lia.
  - intros H.
    apply (cache_names_coincide_within_a_second Sample.at_10_06
             Sample.at_10_06_01) in H; try reflexivity; try (simpl; lia).
    discriminate H.
Defined.

Lemma forwarded_key_is_the_header_witness :
  In (EvHttpGet " key ")
    (trace (get_singapore_ship_data Sample.loads Sample.dumps
              Sample.float_of_str Sample.world_miss " key "))
  /\ PyStr.all_space " key " = false.
Proof.
  assert (H : In (EvHttpGet " key ")
                (trace (get_singapore_ship_data Sample.loads Sample.dumps
                          Sample.float_of_str Sample.world_miss " key ")))
    by (simpl; auto).
  split; [exact H | ].
  exact (proj2 (forwarded_key_is_the_header Sample.loads Sample.dumps
                  Sample.float_of_str Sample.world_miss " key " " key " H)).
Defined.

Lemma lookup_effects_are_bounded_witness :
  cache_writes
    (trace (get_singapore_ship_data Sample.loads Sample.dumps
              Sample.float_of_str Sample.world_miss "key")) <> []
  /\ existsb is_network_call
       (trace (get_singapore_ship_data Sample.loads Sample.dumps
                 Sample.float_of_str Sample.world_miss "key")) = true
  /\ existsb is_download
       (trace (get_singapore_ship_data Sample.loads Sample.dumps
                 Sample.float_of_str Sample.world_miss "key")) = false.
Proof.
  assert (Hw : cache_writes
                 (trace (get_singapore_ship_data Sample.loads Sample.dumps
                           Sample.float_of_str Sample.world_miss "key")) <> [])
    by (vm_compute; discriminate).
  split; [exact Hw | ].
  destruct (lookup_effects_are_bounded Sample.loads Sample.dumps
              Sample.float_of_str Sample.world_miss "key")
    as (_ & _ & _ & _ & H).
  split; [exact (H Hw) | reflexivity].
Defined.

Lemma bodies_that_are_no_list_witness :
  transform Sample.float_of_str (PDict [("error", PStr "quota exceeded")])
  = Raise AttributeError
  /\ transform Sample.float_of_str (PStr "quota exceeded") = Raise AttributeError.
Proof.
  destruct (bodies_that_are_no_list Sample.float_of_str
              [("error", PStr "quota exceeded")] "quota exceeded" true 0
              float_zero)
    as (_ & _ & Hd & Hs & _).
  split; [apply Hd | apply Hs]; discriminate.
Defined.
